(** * IRM: breast-cancer assistant -- a shallow embedding of the Python sources

    The development follows the layout of the repository:

    - [config.py]              the malignancy threshold;
    - [modules/utils.py]       language detection, the response curator
                               [clean_llama_response], the prompt builder and
                               the rule-based fallback answers;
    - [modules/knowledge.py]   [extract_relevant_knowledge];
    - [modules/callbacks.py]   the [CallbackManager] event bus;
    - [modules/chat.py]        the topic gate and the answer pipeline;
    - [modules/detection.py]   [display_results].

    Python values are modelled as follows.  A [str] is the list of its Unicode
    code points, so that [len], slicing and the [in] operator are those of
    Python.  The Unicode character database of the interpreter (case mapping,
    the alphanumeric property) is not part of the repository: the functions
    are parametric in it (class [Unicode]).  The external collaborators
    (language identification, the text generator, the clock, identifiers) are
    oracles passed as arguments; the effects of a function (user-interface
    calls, log lines, calls to collaborators) are returned as a trace.
    Exceptions are values of an error monad. *)

From Stdlib Require Import QArith.
From stdpp Require Import base option list gmap strings pretty.

Set Default Proof Using "Type".

(* ===================================================================== *)
(** ** Python strings *)
(* ===================================================================== *)

(** A Python [str]: a sequence of code points. *)
Definition str := list N.

(** Decoding of the UTF-8 bytes of a source literal into code points. *)
Fixpoint utf8_decode (bs : list N) : str :=
  match bs with
  | [] => []
  | b :: rest =>
      if (b <? 128)%N then b :: utf8_decode rest
      else if (b <? 224)%N then
        match rest with
        | b1 :: r => ((b - 192) * 64 + (b1 - 128))%N :: utf8_decode r
        | _ => []
        end
      else if (b <? 240)%N then
        match rest with
        | b1 :: b2 :: r =>
            ((b - 224) * 4096 + (b1 - 128) * 64 + (b2 - 128))%N :: utf8_decode r
        | _ => []
        end
      else
        match rest with
        | b1 :: b2 :: b3 :: r =>
            ((b - 240) * 262144 + (b1 - 128) * 4096 + (b2 - 128) * 64 + (b3 - 128))%N
              :: utf8_decode r
        | _ => []
        end
  end.

(** [py "..."] is the Python string written by the literal. *)
Definition py (s : string) : str :=
  utf8_decode (map Ascii.N_of_ascii (String.list_ascii_of_string s)).
#[global] Arguments py : simpl never.

(** The double quote and the line feed, which literals below do not contain. *)
Definition DQUOTE : N := 34.
Definition LF : N := 10.

Definition str_eqb (a b : str) : bool := bool_decide (a = b).

(** [s.startswith(p)]. *)
Fixpoint startswith (p s : str) : bool :=
  match p, s with
  | [], _ => true
  | _ :: _, [] => false
  | a :: p', b :: s' => (a =? b)%N && startswith p' s'
  end.

(** [sub in s]. *)
Fixpoint str_in (sub s : str) : bool :=
  startswith sub s ||
  match s with
  | [] => false
  | _ :: s' => str_in sub s'
  end.

(** [any(word in s for word in words)]. *)
Definition any_in (words : list str) (s : str) : bool :=
  existsb (fun word => str_in word s) words.

(** [sep.join(parts)]. *)
Fixpoint str_join (sep : str) (parts : list str) : str :=
  match parts with
  | [] => []
  | [p] => p
  | p :: rest => p ++ sep ++ str_join sep rest
  end.

(** [str.isspace] on one character, which is also the class [\s] of [re]. *)
Definition isspace (c : N) : bool :=
  ((9 <=? c) && (c <=? 13) || (28 <=? c) && (c <=? 32) ||
   (c =? 133) || (c =? 160) || (c =? 5760) ||
   (8192 <=? c) && (c <=? 8202) || (c =? 8232) || (c =? 8233) ||
   (c =? 8239) || (c =? 8287) || (c =? 12288))%N.

Fixpoint lstrip (s : str) : str :=
  match s with
  | c :: s' => if isspace c then lstrip s' else s
  | [] => []
  end.

(** [s.strip()]. *)
Definition str_strip (s : str) : str := rev (lstrip (rev (lstrip s))).

(** [s.replace(old, new)]: the occurrences of [old] are replaced from left to
    right, without overlap.  [skip] counts the characters of an occurrence
    still to be passed over. *)
Fixpoint replace_go (old new : str) (skip : nat) (s : str) : str :=
  match s with
  | [] => []
  | x :: s' =>
      match skip with
      | S n => replace_go old new n s'
      | O =>
          if startswith old s
          then new ++ replace_go old new (length old - 1) s'
          else x :: replace_go old new 0 s'
      end
  end.

Definition str_replace (old new s : str) : str :=
  match old with
  | [] => new ++ flat_map (fun c => c :: new) s
  | _ => replace_go old new 0 s
  end.

(** [s.split()]: the maximal runs of characters that are not white space.
    [cur] is the run being read, in reverse. *)
Fixpoint split_ws_go (cur : str) (s : str) : list str :=
  match s with
  | [] => match cur with [] => [] | _ => [rev cur] end
  | c :: s' =>
      if isspace c
      then match cur with
           | [] => split_ws_go [] s'
           | _ => rev cur :: split_ws_go [] s'
           end
      else split_ws_go (c :: cur) s'
  end.

Definition str_split (s : str) : list str := split_ws_go [] s.

(** ** The Unicode tables of the interpreter *)

Class Unicode := {
  (** [str.lower] *)
  str_lower : str -> str;
  (** the alphanumeric property, on which the class [\w] of [re] rests *)
  isalnum : N -> bool;
  (** under [re.IGNORECASE], the pattern character [p] matches the text
      character [c] *)
  ci_eq : N -> N -> bool;
}.

(** The tables on ASCII, Latin-1 and the Arabic block, where every constant
    of the program lives; other characters are caseless and not
    alphanumeric here. *)
Definition basic_lower1 (c : N) : N :=
  if ((65 <=? c) && (c <=? 90))%N then (c + 32)%N
  else if ((192 <=? c) && (c <=? 222) && negb (c =? 215))%N then (c + 32)%N
  else c.

Definition basic_isalnum (c : N) : bool :=
  ((48 <=? c) && (c <=? 57) || (65 <=? c) && (c <=? 90) ||
   (97 <=? c) && (c <=? 122) ||
   (c =? 170) || (c =? 178) || (c =? 179) || (c =? 181) || (c =? 185) ||
   (c =? 186) || (188 <=? c) && (c <=? 190) ||
   (192 <=? c) && (c <=? 214) || (216 <=? c) && (c <=? 246) ||
   (248 <=? c) && (c <=? 255) ||
   (1568 <=? c) && (c <=? 1610) || (1632 <=? c) && (c <=? 1641) ||
   (1646 <=? c) && (c <=? 1647) || (1649 <=? c) && (c <=? 1747) ||
   (c =? 1749) || (1765 <=? c) && (c <=? 1766) ||
   (1774 <=? c) && (c <=? 1788) || (c =? 1791))%N.

Definition basic_unicode : Unicode := {|
  str_lower := map basic_lower1;
  isalnum := basic_isalnum;
  ci_eq := fun p c => (basic_lower1 p =? basic_lower1 c)%N;
|}.

(* ===================================================================== *)
(** ** Regular expressions: the fragment of [re] the program uses *)
(* ===================================================================== *)

(** The members of a bracketed set. *)
Inductive citem :=
  | IChar (c : N)
  | IRange (lo hi : N)
  | IWord
  | ISpace.

(** What matches one character. *)
Inductive cclass :=
  | CLit (c : N)
  | CAny                                     (* [.] under [re.DOTALL] *)
  | CSet (neg : bool) (items : list citem)   (* [[...]] and [[^...]] *)
  | CWord                                    (* [\w] *)
  | CSpace.                                  (* [\s] *)

(** Every repetition of the program's patterns is over one character:
    [Rep lo true c] is [c{lo,}] and [Rep lo false c] is [c{lo,}?]. *)
Inductive regex :=
  | Eps
  | Chr (c : cclass)
  | Rep (lo : nat) (greedy : bool) (c : cclass)
  | Seq (r1 r2 : regex)
  | Alt (r1 r2 : regex)
  | Bol                                      (* [^] *)
  | Eol                                      (* [$] *)
  | WordB                                    (* [\b] *)
  | Look (r : regex).                        (* [(?=r)] *)

Definition re_lit (s : string) : regex :=
  foldr (fun c r => Seq (Chr (CLit c)) r) Eps (py s).

Definition re_seq (rs : list regex) : regex := foldr Seq Eps rs.

Fixpoint re_alt (rs : list regex) : regex :=
  match rs with
  | [] => Eps
  | [r] => r
  | r :: rs' => Alt r (re_alt rs')
  end.

(** The code points from [lo] to [hi]. *)
Definition code_range (lo hi : N) : list N :=
  map (fun i => (lo + N.of_nat i)%N) (seq 0 (N.to_nat (hi + 1 - lo))).

Section Matcher.
Context `{Unicode}.
(** [re.IGNORECASE] is set. *)
Variable icase : bool.

Definition is_word (c : N) : bool := isalnum c || (c =? 95)%N.

Definition word_at (o : option N) : bool :=
  match o with
  | Some c => is_word c
  | None => false
  end.

Definition chr_test (p c : N) : bool :=
  if icase then ci_eq p c else (p =? c)%N.

Definition item_test (it : citem) (c : N) : bool :=
  match it with
  | IChar p => chr_test p c
  | IRange lo hi =>
      if icase then existsb (fun p => ci_eq p c) (code_range lo hi)
      else ((lo <=? c) && (c <=? hi))%N
  | IWord => is_word c
  | ISpace => isspace c
  end.

Definition cc_test (cc : cclass) (c : N) : bool :=
  match cc with
  | CLit p => chr_test p c
  | CAny => true
  | CSet neg items => xorb neg (existsb (fun it => item_test it c) items)
  | CWord => is_word c
  | CSpace => isspace c
  end.

(** The backtracking matcher, in continuation-passing style.  A position is
    the character before it ([None] at the start of the text) and the text
    after it; [k] is what remains to be matched.  The alternatives are tried
    in the order of [re]: the left branch first, the longer repetition first
    when greedy and the shorter first when lazy. *)
Fixpoint rep {A} (test : N -> bool) (greedy : bool) (lo : nat)
    (prev : option N) (s : str) (k : option N -> str -> option A) : option A :=
  match s with
  | x :: s' =>
      if test x then
        if greedy then
          match rep test greedy (pred lo) (Some x) s' k with
          | Some v => Some v
          | None => match lo with O => k prev s | S _ => None end
          end
        else
          match match lo with O => k prev s | S _ => None end with
          | Some v => Some v
          | None => rep test greedy (pred lo) (Some x) s' k
          end
      else match lo with O => k prev s | S _ => None end
  | [] => match lo with O => k prev s | S _ => None end
  end.

Fixpoint rmatch {A} (r : regex) (prev : option N) (s : str)
    (k : option N -> str -> option A) : option A :=
  match r with
  | Eps => k prev s
  | Chr c =>
      match s with
      | x :: s' => if cc_test c x then k (Some x) s' else None
      | [] => None
      end
  | Rep lo greedy c => rep (cc_test c) greedy lo prev s k
  | Seq a b => rmatch a prev s (fun p s' => rmatch b p s' k)
  | Alt a b =>
      match rmatch a prev s k with
      | Some v => Some v
      | None => rmatch b prev s k
      end
  | Bol => match prev with None => k prev s | Some _ => None end
  | Eol =>
      match s with
      | [] => k prev s
      | [c] => if (c =? LF)%N then k prev s else None
      | _ => None
      end
  | WordB => if xorb (word_at prev) (word_at (head s)) then k prev s else None
  | Look a =>
      match rmatch a prev s (fun _ _ => Some tt) with
      | Some _ => k prev s
      | None => None
      end
  end.

(** The length of the match of [r] that starts at the position, if any. *)
Definition match_at (r : regex) (prev : option N) (s : str) : option nat :=
  rmatch r prev s (fun _ s' => Some (length s - length s')).

(** The scans below read the text from left to right; [skip] counts the
    characters of the last match still to be passed over.  A match of length
    zero is taken where it stands and the scan moves on by one character. *)

Fixpoint sub_go (r : regex) (repl : str) (skip : nat) (prev : option N)
    (s : str) : str :=
  match skip with
  | S n =>
      match s with
      | x :: s' => sub_go r repl n (Some x) s'
      | [] => []
      end
  | O =>
      match match_at r prev s with
      | Some n =>
          repl ++
          match s with
          | x :: s' =>
              match n with
              | O => x :: sub_go r repl 0 (Some x) s'
              | S n' => sub_go r repl n' (Some x) s'
              end
          | [] => []
          end
      | None =>
          match s with
          | x :: s' => x :: sub_go r repl 0 (Some x) s'
          | [] => []
          end
      end
  end.

(** [re.sub(r, repl, s)] for a replacement without group references. *)
Definition re_sub (r : regex) (repl s : str) : str := sub_go r repl 0 None s.

Fixpoint split_go (r : regex) (skip : nat) (prev : option N) (cur : str)
    (s : str) : list str :=
  match skip with
  | S n =>
      match s with
      | x :: s' => split_go r n (Some x) cur s'
      | [] => [rev cur]
      end
  | O =>
      match match_at r prev s with
      | Some n =>
          rev cur ::
          match s with
          | x :: s' =>
              match n with
              | O => split_go r 0 (Some x) [x] s'
              | S n' => split_go r n' (Some x) [] s'
              end
          | [] => [[]]
          end
      | None =>
          match s with
          | x :: s' => split_go r 0 (Some x) (x :: cur) s'
          | [] => [rev cur]
          end
      end
  end.

(** [re.split(r, s)] for a pattern without groups. *)
Definition re_split (r : regex) (s : str) : list str := split_go r 0 None [] s.

Fixpoint findall_go (r : regex) (skip : nat) (prev : option N) (s : str)
    : list str :=
  match skip with
  | S n =>
      match s with
      | x :: s' => findall_go r n (Some x) s'
      | [] => []
      end
  | O =>
      match match_at r prev s with
      | Some n =>
          take n s ::
          match s with
          | x :: s' => findall_go r (pred n) (Some x) s'
          | [] => []
          end
      | None =>
          match s with
          | x :: s' => findall_go r 0 (Some x) s'
          | [] => []
          end
      end
  end.

(** [re.findall(r, s)] for a pattern without groups. *)
Definition re_findall (r : regex) (s : str) : list str := findall_go r 0 None s.

Fixpoint search_go (r : regex) (prev : option N) (s : str) : bool :=
  match match_at r prev s with
  | Some _ => true
  | None =>
      match s with
      | x :: s' => search_go r (Some x) s'
      | [] => false
      end
  end.

(** [re.search(r, s)] as a truth value. *)
Definition re_search (r : regex) (s : str) : bool := search_go r None s.

End Matcher.

(* ===================================================================== *)
(** ** Exceptions *)
(* ===================================================================== *)

(** A raised exception: its class and [str(e)]. *)
Record exn := Exn { exn_type : str; exn_msg : str }.

(** The outcome of a call that may raise. *)
Inductive result (A : Type) :=
  | Ok (a : A)
  | Raise (e : exn).
Arguments Ok {A} a.
Arguments Raise {A} e.

#[global] Instance result_ret : MRet result := fun A a => Ok a.
#[global] Instance result_bind : MBind result := fun A B f m =>
  match m with
  | Ok a => f a
  | Raise e => Raise e
  end.

(** [l[i]] for a non-negative index. *)
Definition list_get {A} (l : list A) (i : nat) : result A :=
  match l !! i with
  | Some a => Ok a
  | None => Raise (Exn (py "IndexError") (py "list index out of range"))
  end.

(* ===================================================================== *)
(** ** config.py *)
(* ===================================================================== *)

(** Confidences are finite binary floating-point numbers, which the code only
    compares; each is a rational and the comparison of Python on them is the
    order of the rationals. *)
Definition MALIGNANCY_THRESHOLD : Q := 0.70%Q.

(** [a > b] on confidences. *)
Definition Qgtb (a b : Q) : bool := negb (Qle_bool a b).

(* ===================================================================== *)
(** ** modules/utils.py *)
(* ===================================================================== *)

(** The language identifier [langdetect.detect], an external collaborator. *)
Class Langdetect := { langdetect_detect : str -> result str }.

Definition detect_language `{Langdetect} (text : str) : str :=
  match langdetect_detect text with
  | Ok lang => lang
  | Raise _ => py "fr"
  end.

Definition TOO_SHORT_MESSAGE : str :=
  py "Je ne peux pas générer une réponse complète pour le moment.".

Definition incorrect_terms : list str :=
  [py "glandes salivaires";
   py "cancéro-breast";
   py "Léucodésques de Kallmann";
   py "Mélancoloma";
   py "tissue mammary";
   py "moustacelles";
   py "cancérisation";
   py "tumor anaplastique";
   py "lécithines";
   py "cellules moustacelles";
   py "anaplastique intraépithéliale";
   py "tumors anaplastiques"].

Definition prompt_stopwords : list str :=
  [py "dans";
   py "avec";
   py "pour";
   py "quel";
   py "quelle";
   py "quels";
   py "quelles";
   py "comment";
   py "est-ce";
   py "sont";
   py "mais";
   py "aussi";
   py "donc";
   py "alors"].

(** *** The patterns of [clean_llama_response] *)

Definition LAZY_ANY : regex := Rep 0 false CAny.                       (* [.*?] *)
Definition SPACES : regex := Rep 0 true CSpace.                        (* [\s*] *)
(** [[^\.\n]*?] *)
Definition IN_SENTENCE_LINE : regex := Rep 0 false (CSet true [IChar 46; IChar LF]).
(** [[^\.]*?] *)
Definition IN_SENTENCE : regex := Rep 0 false (CSet true [IChar 46]).
(** [(?=\. [A-Z]|$)] *)
Definition BEFORE_NEXT_SENTENCE : regex :=
  Look (Alt (Seq (re_lit ". ") (Chr (CSet false [IRange 65 90]))) Eol).

(** Leaked instructions and restated questions
    ([re.DOTALL | re.IGNORECASE], replaced by the empty string). *)
Definition instruction_patterns : list regex :=
  [ re_seq [re_lit "INSTRUCTION ";
            re_alt [re_lit "CRITIQUE"; re_lit "INTERNE"; re_lit "CRITICAL"];
            LAZY_ANY; re_lit "Question:"];
    re_seq [re_lit "INTERNAL INSTRUCTION"; LAZY_ANY; re_lit "Question:"];
    re_seq [re_lit "تعليمات "; re_alt [re_lit "مهمة"; re_lit "داخلية"];
            LAZY_ANY; re_lit "السؤال:"];
    re_seq [re_lit "Question corrigée et reformulée"; SPACES; re_lit ":";
            LAZY_ANY; Chr (CLit LF)];
    re_seq [re_lit "Corrected and rephrased question"; SPACES; re_lit ":";
            LAZY_ANY; Chr (CLit LF)];
    re_seq [re_lit "السؤال المصحح والمعاد صياغته"; SPACES; re_lit ":";
            LAZY_ANY; Chr (CLit LF)] ].

(** Mentions of the correction ([re.IGNORECASE]). *)
Definition correction_patterns : list regex :=
  [ re_lit "J'ai corrigé et reformulé votre question.";
    re_lit "I have corrected and rephrased your question.";
    re_lit "لقد قمت بتصحيح وإعادة صياغة سؤالك." ].

(** [<[^>]*>] and [[\*\_\~\`\|]+] (no flag). *)
Definition TAG : regex :=
  re_seq [Chr (CLit 60); Rep 0 true (CSet true [IChar 62]); Chr (CLit 62)].
Definition EMPHASIS : regex :=
  Rep 1 true (CSet false [IChar 42; IChar 95; IChar 126; IChar 96; IChar 124]).

(** [\b\w+\b] and [\n\s*\n] (no flag). *)
Definition WORD : regex := re_seq [WordB; Rep 1 true CWord; WordB].
Definition BLANK_LINE : regex := re_seq [Chr (CLit LF); SPACES; Chr (CLit LF)].

(** The polite phrases that cost a paragraph ten points (no flag; the
    paragraph is in lower case). *)
Definition POLITENESS : regex :=
  re_alt [re_lit "n'hésitez pas"; re_lit "je suis là"; re_lit "en espérant";
          re_lit "j'espère"; re_lit "pour toute question"].

(** Closing formulas, summaries, referrals to a physician and remarks on the
    subject ([re.IGNORECASE | re.DOTALL], replaced by the empty string, in
    this order). *)
Definition closing_patterns : list regex :=
  [ re_seq [re_lit "N'hésitez"; IN_SENTENCE_LINE; re_lit "à me poser";
            IN_SENTENCE_LINE; re_lit "."];
    re_seq [re_lit "Nous sommes là pour t'aider"; IN_SENTENCE_LINE; re_lit "."];
    re_seq [re_lit "Si tu n'obtiens pas"; IN_SENTENCE_LINE; re_lit "."];
    re_seq [re_lit "Vous pouvez aussi contacter"; IN_SENTENCE_LINE; re_lit "."];
    re_seq [re_lit "Si j'avais des réponses"; IN_SENTENCE_LINE; re_lit "."];
    re_seq [re_lit "Je suis"; IN_SENTENCE_LINE; re_lit "à votre service";
            IN_SENTENCE_LINE; re_lit "."];
    re_seq [re_lit "n'hésitez pas à me poser"; IN_SENTENCE_LINE; re_lit "."];
    re_seq [re_lit "N'hésitez pas à me demander"; IN_SENTENCE_LINE; re_lit "."];
    re_seq [re_lit "Je suis disponible"; IN_SENTENCE_LINE; re_lit "."];
    re_seq [re_lit "J'espère que cette "; IN_SENTENCE_LINE; re_lit " vous a aidé";
            IN_SENTENCE_LINE; re_lit "."];
    re_seq [re_lit "En espérant avoir répondu à votre question";
            IN_SENTENCE_LINE; re_lit "."];
    re_seq [re_lit "Avez-vous d'autres questions"; IN_SENTENCE_LINE; re_lit "."];
    re_seq [re_lit "En résumé,"; IN_SENTENCE; BEFORE_NEXT_SENTENCE];
    re_seq [re_lit "En conclusion,"; IN_SENTENCE; BEFORE_NEXT_SENTENCE];
    re_seq [re_lit "Il est "; Alt (re_lit "donc ") Eps;
            re_lit "important que vous consultiez un médecin"; IN_SENTENCE;
            re_lit "."];
    re_seq [re_lit "vous devriez consulter un médecin"; IN_SENTENCE; re_lit "."];
    re_seq [re_lit "consultez un professionnel de santé"; IN_SENTENCE; re_lit "."];
    re_seq [re_lit "Il est ";
            re_alt [re_lit "aussi "; re_lit "également "; Eps];
            re_lit "important de noter"; IN_SENTENCE; re_lit "."];
    re_seq [re_lit "il s'agit "; Alt (re_lit "donc ") Eps; re_lit "d'un sujet ";
            Alt (re_lit "très ") Eps; re_lit "vaste et complexe"; IN_SENTENCE;
            re_lit "."];
    re_seq [re_lit "Il n'est pas possible dans ce contexte"; IN_SENTENCE;
            re_lit "."] ].

(** [\n{3,}], [ {2,}] (no flag) and [^(Réponse|Answer|إجابة)\s*:\s*]
    ([re.IGNORECASE]). *)
Definition NEWLINES3 : regex := Rep 3 true (CLit LF).
Definition SPACES2 : regex := Rep 2 true (CLit 32).
Definition ANSWER_LABEL : regex :=
  re_seq [Bol; re_alt [re_lit "Réponse"; re_lit "Answer"; re_lit "إجابة"];
          SPACES; re_lit ":"; SPACES].

(** *** [clean_llama_response] *)

Section Curator.
Context `{Unicode}.

(** [for pattern in patterns: answer = re.sub(pattern, '', answer, flags)]. *)
Definition strip_all (icase : bool) (patterns : list regex) (answer : str) : str :=
  foldl (fun a r => re_sub icase r [] a) answer patterns.

(** [scored_paragraphs.sort(key=lambda x: x[1], reverse=True)]: a stable
    sort, the higher score first. *)
Fixpoint insert_desc (x : str * Z) (l : list (str * Z)) : list (str * Z) :=
  match l with
  | [] => [x]
  | y :: l' => if (x.2 <? y.2)%Z then y :: insert_desc x l' else x :: l
  end.

Definition sort_desc (l : list (str * Z)) : list (str * Z) :=
  foldr insert_desc [] l.

(** The score of the paragraph of index [i]. *)
Definition paragraph_score (significant_words : gset str) (i : nat) (para : str) : Z :=
  let para_lower := str_lower para in
  let para_words : gset str := list_to_set (re_findall false WORD para_lower) in
  let word_match_score := (Z.of_nat (size (para_words ∩ significant_words)) * 2)%Z in
  let position_score := (Z.max 0 (3 - Z.of_nat i) * 2)%Z in
  let politeness_penalty :=
    if re_search false POLITENESS para_lower then 10%Z else 0%Z in
  (word_match_score + position_score - politeness_penalty)%Z.

(** The paragraphs of [answer] that are longer than 20 characters. *)
Definition long_paragraphs (answer : str) : list str :=
  omap (fun p => if (20 <? length (str_strip p))%nat then Some (str_strip p) else None)
       (re_split false BLANK_LINE answer).

(** The [if query:] block: the four best paragraphs, in their first order. *)
Definition keep_relevant (query answer : str) : result str :=
  let query_lower := str_lower query in
  let question_words : gset str := list_to_set (re_findall false WORD query_lower) in
  let significant_words : gset str :=
    filter (fun word => (3 < length word)%nat) question_words in
  let paragraphs := long_paragraphs answer in
  let scored_paragraphs :=
    imap (fun i para => (para, paragraph_score significant_words i para)) paragraphs in
  let best_paragraphs := (take 4 (sort_desc scored_paragraphs)).*1 in
  let ordered_paragraphs :=
    filter (fun p => p ∈ best_paragraphs) paragraphs in
  ordered_paragraphs ←
    (if bool_decide (ordered_paragraphs = []) && bool_decide (paragraphs ≠ [])
     then p ← list_get paragraphs 0; Ok [p]
     else Ok ordered_paragraphs);
  Ok (str_join [LF; LF] ordered_paragraphs).

(** The cleaning before the relevance analysis. *)
Definition clean_head (answer : str) : str :=
  let answer := strip_all true instruction_patterns answer in
  let answer := strip_all true correction_patterns answer in
  let answer := re_sub false TAG [] answer in
  let answer := re_sub false EMPHASIS [] answer in
  foldl (fun a term => str_replace term [] a) answer incorrect_terms.

(** The cleaning after it. *)
Definition clean_tail (answer : str) : str :=
  let answer := strip_all true closing_patterns answer in
  let answer := re_sub false NEWLINES3 [LF; LF] answer in
  let answer := re_sub false SPACES2 [32%N] answer in
  let answer := re_sub true ANSWER_LABEL [] answer in
  str_strip answer.

Definition clean_llama_response (answer query : str) : result str :=
  if bool_decide (answer = []) || (length answer <? 10)%nat then
    Ok TOO_SHORT_MESSAGE
  else
    let answer := clean_head answer in
    answer ← (if bool_decide (query ≠ []) then keep_relevant query answer
              else Ok answer);
    Ok (clean_tail answer).

End Curator.

(* ===================================================================== *)
(** ** Values and effects *)
(* ===================================================================== *)

(** The values passed as keyword arguments and shown on the page. *)
#[warnings="-register-all"]
Inductive value :=
  | VNone
  | VBool (b : bool)
  | VInt (z : Z)
  | VFloat (q : Q)
  | VStr (s : str)
  | VList (l : list value).

(** Keyword arguments, in the order of the call. *)
Definition kwargs := list (str * value).

(** What a function does besides returning: lines of the log, calls to
    subscribers, files written, calls to the page ([st.error(...)] is
    [Ui "error"]; numbers are kept as values, their rendering into text is
    the interpreter's), and the stages of the answer pipeline it enters. *)
Inductive effect :=
  | Log (level : string) (msg : str)
  | Called (subscriber : nat) (args : kwargs)
  | FileWritten (path : str)
  | Ui (call : string) (args : list value)
  | Retrieval (query knowledge_base language : str)
  | PromptBuilt (prompt : str)
  | Generation (prompt : str).


(** *** [generate_llama_prompt] *)

Definition system_message_fr : str :=
  py "
        Tu es un assistant médical spécialisé dans le cancer du sein. RÉPONDS UNIQUEMENT ET DIRECTEMENT À CE QUI EST DEMANDÉ dans la question. 
        Fournis une réponse détaillée, en utilisant plusieurs paragraphes si nécessaire pour bien expliquer chaque point, mais fais-le de manière structurée et claire. 

        N'introduis PAS de définitions ou d'informations non demandées, et ne t'écarte pas du sujet précis de la question. 
        Assure-toi que ta réponse est grammaticale, sans fautes d'orthographe, et bien formulée. 
        N'utilise pas de formules de politesse ni d'invitations à poser d'autres questions.
        Donne une réponse claire de maximum 10 lignes et qui convient à la question posée.
        Dans la réponse, tu dois uniquement répondre à la question posée, sans aborder d'autres sujets qui ne sont pas demandés. Réponds strictement à la question, ni plus ni moins.       
        Termine la phrase, ne t'arrête pas en cours de réponse.
        ".

Definition system_message_en : str :=
  py "
        You are a medical assistant specializing in breast cancer. ANSWER ONLY AND DIRECTLY WHAT IS ASKED in the question. 
        Provide a detailed response, using multiple paragraphs when necessary to explain each point clearly and effectively. 

        DO NOT introduce definitions or information that wasn't asked for and don't deviate from the specific topic of the question. 
        Ensure your answer is grammatically correct, free from spelling mistakes, and well-structured. 
        Don't use politeness formulas or invitations to ask other questions.
        Provide a clear response with a maximum of 10 lines that fits the question being asked.
        In your answer, you should only respond to the question being asked, without addressing any other topics. Respond strictly to the question, no more, no less.       
        Finish the sentence, do not stop halfway.
        ".

Definition system_message_ar : str :=
  py "
        أنت مساعد طبي متخصص في سرطان الثدي. أجب فقط ومباشرة على ما هو مطلوب في السؤال. 
        قدم إجابة مفصلة باستخدام عدة فقرات عند الحاجة لشرح كل نقطة بوضوح وفعالية. 

        لا تقدم تعريفات أو معلومات غير مطلوبة ولا تنحرف عن الموضوع المحدد للسؤال. 
        تأكد من أن إجابتك صحيحة من الناحية النحوية وخالية من الأخطاء الإملائية ومهيكلة بشكل جيد. 
        لا تستخدم صيغ المجاملة أو الدعوات لطرح أسئلة أخرى.
        قدم إجابة واضحة لا تتجاوز 10 أسطر تتناسب مع السؤال المطروح.
        في إجابتك، يجب أن تقتصر على الإجابة عن السؤال المطروح دون التطرق إلى مواضيع أخرى. أجب بدقة على السؤال، لا أكثر ولا أقل.       
        أكمل الجملة، لا تتوقف في منتصف الجواب.
        ".

Definition system_message_other : str :=
  py "
        Tu es un assistant médical spécialisé dans le cancer du sein. RÉPONDS UNIQUEMENT ET DIRECTEMENT À CE QUI EST DEMANDÉ dans la question. 
        Fournis une réponse détaillée, en utilisant plusieurs paragraphes si nécessaire pour bien expliquer chaque point, mais fais-le de manière structurée et claire. 

        N'introduis PAS de définitions ou d'informations non demandées, et ne t'écarte pas du sujet précis de la question. 
        Assure-toi que ta réponse est grammaticale, sans fautes d'orthographe, et bien formulée. 
        N'utilise pas de formules de politesse ni d'invitations à poser d'autres questions.
        Donne une réponse claire de maximum 10 lignes et qui convient à la question posée.
        Dans la réponse, tu dois uniquement répondre à la question posée, sans aborder d'autres sujets qui ne sont pas demandés. Réponds strictement à la question, ni plus ni moins.       
        Termine la phrase, ne t'arrête pas en cours de réponse.
        ".

Definition specific_instruction_fr (query concepts knowledge_base : str) : str :=
  (py "INSTRUCTION CRITIQUE: 
1. Réponds UNIQUEMENT à la question suivante: " ++ [DQUOTE])
  ++ query
  ++ ([DQUOTE] ++ py "
2. Concentre-toi sur ces concepts clés: ")
  ++ concepts
  ++ (py "
3. Fournis une réponse DÉTAILLÉE mais STRICTEMENT PERTINENTE (pas d'information hors sujet)
4. Structure ta réponse en 2-4 paragraphes bien organisés
5. Ne mentionne PAS que tu as reçu ces instructions
6. Ne termine PAS par des formules de politesse ou des invitations

Voici les informations médicales fiables sur lesquelles baser ta réponse:
")
  ++ knowledge_base
  ++ (py "

Question: ")
  ++ query.

Definition specific_instruction_en (query concepts knowledge_base : str) : str :=
  (py "CRITICAL INSTRUCTION: 
1. Answer ONLY the following question: " ++ [DQUOTE])
  ++ query
  ++ ([DQUOTE] ++ py "
2. Focus on these key concepts: ")
  ++ concepts
  ++ (py "
3. Provide a DETAILED but STRICTLY RELEVANT response (no off-topic information)
4. Structure your answer in 2-4 well-organized paragraphs
5. DO NOT mention that you received these instructions
6. DO NOT end with politeness formulas or invitations

Here is the reliable medical information on which to base your answer:
")
  ++ knowledge_base
  ++ (py "

Question: ")
  ++ query.

Definition specific_instruction_ar (query concepts knowledge_base : str) : str :=
  (py "تعليمات مهمة: 
1. أجب فقط على السؤال التالي: " ++ [DQUOTE])
  ++ query
  ++ ([DQUOTE] ++ py "
2. ركز على هذه المفاهيم الرئيسية: ")
  ++ concepts
  ++ (py "
3. قدم إجابة مفصلة ولكن وثيقة الصلة تمامًا (بدون معلومات خارج الموضوع)
4. هيكل إجابتك في 2-4 فقرات منظمة جيدًا
5. لا تذكر أنك تلقيت هذه التعليمات
6. لا تنتهي بصيغ مجاملة أو دعوات

إليك المعلومات الطبية الموثوقة التي يمكنك الاستناد إليها في إجابتك:
")
  ++ knowledge_base
  ++ (py "

السؤال: ")
  ++ query.

Definition specific_instruction_other (query concepts knowledge_base : str) : str :=
  (py "INSTRUCTION CRITIQUE: 
1. Réponds UNIQUEMENT à la question suivante: " ++ [DQUOTE])
  ++ query
  ++ ([DQUOTE] ++ py "
2. Concentre-toi sur ces concepts clés: ")
  ++ concepts
  ++ (py "
3. Fournis une réponse DÉTAILLÉE mais STRICTEMENT PERTINENTE (pas d'information hors sujet)
4. Structure ta réponse en 2-4 paragraphes bien organisés
5. Ne mentionne PAS que tu as reçu ces instructions
6. Ne termine PAS par des formules de politesse ou des invitations

Voici les informations médicales fiables sur lesquelles baser ta réponse:
")
  ++ knowledge_base
  ++ (py "

Question: ")
  ++ query.

Section Prompt.
Context `{Unicode}.

(** The words of the query longer than three characters that are not stop
    words. *)
Definition important_words (query : str) : list str :=
  filter (fun w => (3 < length w)%nat ∧ str_lower w ∉ prompt_stopwords)
         (str_split query).

Definition generate_llama_prompt (query language knowledge_base : str)
    (use_correction : bool) : str :=
  let system_message :=
    if str_eqb language (py "fr") then system_message_fr
    else if str_eqb language (py "en") then system_message_en
    else if str_eqb language (py "ar") then system_message_ar
    else system_message_other in
  let concepts := str_join (py ", ") (take 5 (important_words query)) in
  let specific_instruction :=
    if str_eqb language (py "fr") then
      specific_instruction_fr query concepts knowledge_base
    else if str_eqb language (py "en") then
      specific_instruction_en query concepts knowledge_base
    else if str_eqb language (py "ar") then
      specific_instruction_ar query concepts knowledge_base
    else specific_instruction_other query concepts knowledge_base in
  py "<s>[INST] " ++ system_message ++ [LF; LF] ++ specific_instruction
    ++ py " [/INST]".

End Prompt.

(** *** [get_fallback_response] *)

Definition fallback_fr_greeting : str :=
  py "Bonjour! Je suis votre assistant spécialisé dans le cancer du sein. Comment puis-je vous aider aujourd'hui?".

Definition fallback_fr_thanks : str :=
  py "Je vous en prie! N'hésitez pas si vous avez d'autres questions.".

Definition fallback_fr_symptoms : str :=
  py "Les symptômes courants du cancer du sein incluent une bosse ou un épaississement dans le sein, un changement de taille ou de forme du sein, des modifications de la peau du sein (rougeur, fossettes), un écoulement du mamelon et une douleur dans le sein ou le mamelon. Il est important de consulter un médecin si vous remarquez l'un de ces signes.".

Definition fallback_fr_treatment : str :=
  py "Les traitements du cancer du sein peuvent inclure la chirurgie (tumorectomie ou mastectomie), la radiothérapie, la chimiothérapie, l'hormonothérapie et les thérapies ciblées. Le plan de traitement est personnalisé en fonction du stade du cancer, de son type et des caractéristiques de la patiente.".

Definition fallback_fr_risk : str :=
  py "Les facteurs de risque du cancer du sein incluent l'âge, les antécédents familiaux, les mutations génétiques (BRCA1 et BRCA2), l'exposition aux œstrogènes, le surpoids après la ménopause, la consommation d'alcool et l'inactivité physique. La prévention passe par un mode de vie sain et un dépistage régulier.".

Definition fallback_fr_default : str :=
  py "Je ne peux pas générer une réponse complète à cette question pour le moment. Je vous suggère de reformuler votre question ou de consulter un professionnel de santé pour obtenir des informations précises sur le cancer du sein.".

Definition fallback_en_greeting : str :=
  py "Hello! I'm your breast cancer specialist assistant. How can I help you today?".

Definition fallback_en_thanks : str :=
  py "You're welcome! Feel free to ask if you have any other questions.".

Definition fallback_en_symptoms : str :=
  py "Common breast cancer symptoms include a lump or thickening in the breast, change in breast size or shape, changes to the skin of the breast (redness, dimpling), nipple discharge, and pain in the breast or nipple. It's important to consult a doctor if you notice any of these signs.".

Definition fallback_en_treatment : str :=
  py "Breast cancer treatments may include surgery (lumpectomy or mastectomy), radiation therapy, chemotherapy, hormone therapy, and targeted therapies. The treatment plan is personalized based on the stage of cancer, its type, and the patient's characteristics.".

Definition fallback_en_risk : str :=
  py "Breast cancer risk factors include age, family history, genetic mutations (BRCA1 and BRCA2), estrogen exposure, being overweight after menopause, alcohol consumption, and physical inactivity. Prevention involves a healthy lifestyle and regular screening.".

Definition fallback_en_default : str :=
  py "I cannot generate a complete answer to this question at the moment. I suggest rephrasing your question or consulting a healthcare professional for accurate information about breast cancer.".

Definition fallback_ar_greeting : str :=
  py "مرحباً! أنا مساعدك المتخصص في سرطان الثدي. كيف يمكنني مساعدتك اليوم؟".

Definition fallback_ar_thanks : str :=
  py "على الرحب والسعة! لا تتردد في السؤال إذا كان لديك أي استفسارات أخرى.".

Definition fallback_ar_symptoms : str :=
  py "تشمل أعراض سرطان الثدي الشائعة وجود كتلة أو سماكة في الثدي، تغير في حجم أو شكل الثدي، تغيرات في جلد الثدي (احمرار، نقر)، إفرازات من الحلمة، وألم في الثدي أو الحلمة. من المهم استشارة الطبيب إذا لاحظت أياً من هذه العلامات.".

Definition fallback_ar_treatment : str :=
  py "قد تشمل علاجات سرطان الثدي الجراحة (استئصال الورم أو استئصال الثدي)، والعلاج الإشعاعي، والعلاج الكيميائي، والعلاج الهرموني، والعلاجات المستهدفة. يتم تخصيص خطة العلاج بناءً على مرحلة السرطان، ونوعه، وخصائص المريضة.".

Definition fallback_ar_risk : str :=
  py "تشمل عوامل خطر الإصابة بسرطان الثدي العمر، والتاريخ العائلي، والطفرات الجينية (BRCA1 و BRCA2)، والتعرض للإستروجين، وزيادة الوزن بعد انقطاع الطمث، واستهلاك الكحول، وقلة النشاط البدني. تتضمن الوقاية نمط حياة صحي وفحص منتظم.".

Definition fallback_ar_default : str :=
  py "لا يمكنني تقديم إجابة كاملة على هذا السؤال في الوقت الحالي. أقترح إعادة صياغة سؤالك أو استشارة أخصائي رعاية صحية للحصول على معلومات دقيقة حول سرطان الثدي.".

Definition fallback_other_default : str :=
  py "Je ne peux pas générer une réponse complète à cette question pour le moment. Je vous suggère de reformuler votre question ou de consulter un professionnel de santé pour obtenir des informations précises sur le cancer du sein.".

Definition fallback_words_fr_greeting : list str :=
  [py "bonjour";
   py "salut";
   py "coucou"].

Definition fallback_words_fr_thanks : list str :=
  [py "merci";
   py "remercie"].

Definition fallback_words_fr_symptoms : list str :=
  [py "symptome";
   py "symptôme";
   py "signe"].

Definition fallback_words_fr_treatment : list str :=
  [py "traitement";
   py "soigner";
   py "guérir"].

Definition fallback_words_fr_risk : list str :=
  [py "risque";
   py "facteur";
   py "prévention"].

Definition fallback_words_en_greeting : list str :=
  [py "hello";
   py "hi";
   py "hey"].

Definition fallback_words_en_thanks : list str :=
  [py "thank";
   py "thanks"].

Definition fallback_words_en_symptoms : list str :=
  [py "symptom";
   py "sign"].

Definition fallback_words_en_treatment : list str :=
  [py "treatment";
   py "cure";
   py "heal"].

Definition fallback_words_en_risk : list str :=
  [py "risk";
   py "factor";
   py "prevention"].

Definition fallback_words_ar_greeting : list str :=
  [py "صباح الخير ";
   py "مرحبا";
   py "سلام";
   py "أهلا"].

Definition fallback_words_ar_thanks : list str :=
  [py "شكرا"].

Definition fallback_words_ar_symptoms : list str :=
  [py "عرض";
   py "علامة";
   py "أعراض"].

Definition fallback_words_ar_treatment : list str :=
  [py "علاج";
   py "شفاء"].

Definition fallback_words_ar_risk : list str :=
  [py "خطر";
   py "عامل";
   py "وقاية"].

Section Fallback.
Context `{Unicode}.

Definition get_fallback_response (query language : str) : str :=
  let query_lower := str_lower query in
  if str_eqb language (py "fr") then
    if any_in fallback_words_fr_greeting query_lower then fallback_fr_greeting
    else if any_in fallback_words_fr_thanks query_lower then fallback_fr_thanks
    else if any_in fallback_words_fr_symptoms query_lower then fallback_fr_symptoms
    else if any_in fallback_words_fr_treatment query_lower then fallback_fr_treatment
    else if any_in fallback_words_fr_risk query_lower then fallback_fr_risk
    else fallback_fr_default
  else if str_eqb language (py "en") then
    if any_in fallback_words_en_greeting query_lower then fallback_en_greeting
    else if any_in fallback_words_en_thanks query_lower then fallback_en_thanks
    else if any_in fallback_words_en_symptoms query_lower then fallback_en_symptoms
    else if any_in fallback_words_en_treatment query_lower then fallback_en_treatment
    else if any_in fallback_words_en_risk query_lower then fallback_en_risk
    else fallback_en_default
  else if str_eqb language (py "ar") then
    if any_in fallback_words_ar_greeting query_lower then fallback_ar_greeting
    else if any_in fallback_words_ar_thanks query_lower then fallback_ar_thanks
    else if any_in fallback_words_ar_symptoms query_lower then fallback_ar_symptoms
    else if any_in fallback_words_ar_treatment query_lower then fallback_ar_treatment
    else if any_in fallback_words_ar_risk query_lower then fallback_ar_risk
    else fallback_ar_default
  else fallback_other_default.

End Fallback.

(* ===================================================================== *)
(** ** modules/knowledge.py *)
(* ===================================================================== *)

Section Knowledge.
Context `{Unicode}.

(** The keywords of the first topic of the language that the query names;
    none when the query names no topic or the language is not supported. *)
Definition topic_keywords (language query_lower : str) : list str :=
  if str_eqb language (py "fr") then
    if any_in [py "symptome"; py "symptôme"; py "signe"] query_lower then
      [py "symptôme"; py "signe"; py "caractéristique"; py "manifestation"; py "indication"]
    else if any_in [py "traitement"; py "soigner"; py "guérir"] query_lower then
      [py "traitement"; py "thérapie"; py "soin"; py "guérison"; py "chirurgie"; py "radiothérapie"; py "chimiothérapie"]
    else if any_in [py "risque"; py "facteur"; py "prévention"] query_lower then
      [py "risque"; py "facteur"; py "prévention"; py "dépistage"; py "prédisposition"]
    else if any_in [py "diagnostic"; py "détection"; py "test"] query_lower then
      [py "diagnostic"; py "détection"; py "test"; py "examen"; py "mammographie"; py "biopsie"]
    else []
  else if str_eqb language (py "en") then
    if any_in [py "symptom"; py "sign"] query_lower then
      [py "symptom"; py "sign"; py "characteristic"; py "manifestation"; py "indication"]
    else if any_in [py "treatment"; py "cure"; py "heal"] query_lower then
      [py "treatment"; py "therapy"; py "care"; py "healing"; py "surgery"; py "radiation"; py "chemotherapy"]
    else if any_in [py "risk"; py "factor"; py "prevention"] query_lower then
      [py "risk"; py "factor"; py "prevention"; py "screening"; py "predisposition"]
    else if any_in [py "diagnosis"; py "detection"; py "test"] query_lower then
      [py "diagnosis"; py "detection"; py "test"; py "examination"; py "mammography"; py "biopsy"]
    else []
  else if str_eqb language (py "ar") then
    if any_in [py "عرض"; py "علامة"; py "أعراض"] query_lower then
      [py "عرض"; py "علامة"; py "خصائص"; py "أعراض"; py "مؤشر"]
    else if any_in [py "علاج"; py "شفاء"] query_lower then
      [py "علاج"; py "شفاء"; py "رعاية"; py "جراحة"; py "إشعاع"; py "كيماوي"]
    else if any_in [py "خطر"; py "عامل"; py "وقاية"] query_lower then
      [py "خطر"; py "عامل"; py "وقاية"; py "فحص"; py "استعداد"]
    else if any_in [py "تشخيص"; py "كشف"; py "فحص"] query_lower then
      [py "تشخيص"; py "كشف"; py "فحص"; py "تصوير"; py "خزعة"]
    else []
  else [].

(** The general keywords, used when no topic was found. *)
Definition general_keywords (language : str) : list str :=
  if str_eqb language (py "fr") then
    [py "cancer"; py "sein"; py "tumeur"; py "maligne"; py "bénigne"]
  else if str_eqb language (py "en") then
    [py "cancer"; py "breast"; py "tumor"; py "malignant"; py "benign"]
  else if str_eqb language (py "ar") then
    [py "سرطان"; py "ثدي"; py "ورم"; py "خبيث"; py "حميد"]
  else
    [py "cancer"; py "sein"; py "breast"; py "tumor"; py "tumeur"].

(** The paragraphs kept, joined by blank lines: [combined_segments]. *)
Definition combined_segments (query knowledge_base language : str) : str :=
  let query_lower := str_lower query in
  let keywords := topic_keywords language query_lower in
  let keywords :=
    if bool_decide (keywords = []) then general_keywords language else keywords in
  let paragraphs := re_split false BLANK_LINE knowledge_base in
  let relevant_segments :=
    filter (fun paragraph => any_in keywords (str_lower paragraph) = true) paragraphs in
  let relevant_segments :=
    if bool_decide (relevant_segments = []) && bool_decide (paragraphs ≠ [])
    then take 3 paragraphs else relevant_segments in
  str_join [LF; LF] relevant_segments.

Definition extract_relevant_knowledge (query knowledge_base language : str) : str :=
  if (length knowledge_base <? 1000)%nat then knowledge_base
  else
    let combined := combined_segments query knowledge_base language in
    if (1500 <? length combined)%nat then take 1500 combined ++ py "..."
    else combined.

End Knowledge.

(* ===================================================================== *)
(** ** modules/callbacks.py *)
(* ===================================================================== *)

Definition CALLBACK_TYPES : list str :=
  [py "on_detection"; py "on_classification"; py "on_message"; py "on_error";
   py "on_startup"; py "on_session_end"].

(** A subscriber: a function of the keyword arguments that returns or
    raises, named by a number so that its calls can be told apart. *)
Record callback := Callback {
  cb_id : nat;
  cb_call : kwargs -> result unit;
}.

(** An entry of the history:
    [{"type": ..., "timestamp": ..., "data": ...}]. *)
Record event := Event {
  ev_type : str;
  ev_timestamp : Q;
  ev_data : kwargs;
}.

Record CallbackManager := Manager {
  callbacks : gmap str (list callback);
  history : list event;
  max_history : nat;
}.

(** [l[-n:]]. *)
Definition slice_last {A} (n : nat) (l : list A) : list A :=
  match n with
  | O => l
  | _ => drop (length l - n) l
  end.

(** [CallbackManager()]. *)
Definition new_manager : CallbackManager * list effect :=
  ({| callbacks := list_to_map (map (fun callback_type => (callback_type, [])) CALLBACK_TYPES);
      history := [];
      max_history := 100 |},
   [Log "info" (py "Gestionnaire de callbacks initialisé")]).

(** A method returns its outcome, the receiver after the call, and its
    effects. *)
Definition register (self : CallbackManager) (event_type : str) (callback : callback)
    : result unit * CallbackManager * list effect :=
  if bool_decide (event_type ∉ CALLBACK_TYPES) then
    (Raise (Exn (py "ValueError")
              (py "Type d'événement inconnu: " ++ event_type ++
               py ". Les types valides sont: " ++ str_join (py ", ") CALLBACK_TYPES)),
     self, [])
  else
    match callbacks self !! event_type with
    | None => (Raise (Exn (py "KeyError") event_type), self, [])
    | Some subscribers =>
        (Ok (),
         {| callbacks := <[event_type := subscribers ++ [callback]]> (callbacks self);
            history := history self;
            max_history := max_history self |},
         [Log "debug" (py "Callback enregistré pour l'événement: " ++ event_type)])
    end.

(** The calls of the subscribers of one event, each in its own [try]. *)
Definition run_callbacks (event_type : str) (args : kwargs) (subscribers : list callback)
    : list effect :=
  subscribers ≫= (fun callback =>
    Called (cb_id callback) args ::
    match cb_call callback args with
    | Ok _ => []
    | Raise e =>
        [Log "error" (py "Erreur dans le callback pour " ++ event_type ++ py ": "
                        ++ exn_msg e)]
    end).

(** [trigger(event_type, **kwargs)] at the time [now] of the clock. *)
Definition trigger (now : Q) (self : CallbackManager) (event_type : str) (args : kwargs)
    : result unit * CallbackManager * list effect :=
  if bool_decide (event_type ∉ CALLBACK_TYPES) then
    (Ok (), self,
     [Log "warning" (py "Tentative de déclenchement d'un événement inconnu: "
                       ++ event_type)])
  else
    let event_data := {| ev_type := event_type; ev_timestamp := now; ev_data := args |} in
    let history := history self ++ [event_data] in
    let history :=
      if (max_history self <? length history)%nat
      then slice_last (max_history self) history else history in
    let self := {| callbacks := callbacks self; history := history;
                   max_history := max_history self |} in
    let logged := Log "info" (py "Événement déclenché: " ++ event_type) in
    match callbacks self !! event_type with
    | None => (Raise (Exn (py "KeyError") event_type), self, [logged])
    | Some subscribers =>
        (Ok (), self, logged :: run_callbacks event_type args subscribers)
    end.

(** [save_history(file_path)]; [write] is the file system: it tells whether
    writing the history to the path succeeds. *)
Definition save_history (write : str -> list event -> result unit)
    (self : CallbackManager) (file_path : str)
    : result unit * CallbackManager * list effect :=
  match write file_path (history self) with
  | Ok _ =>
      (Ok (), self,
       [FileWritten file_path;
        Log "info" (py "Historique sauvegardé dans " ++ file_path)])
  | Raise e =>
      (Ok (), self,
       [Log "error" (py "Erreur lors de la sauvegarde de l'historique: " ++ exn_msg e)])
  end.

Definition clear_history (self : CallbackManager)
    : result unit * CallbackManager * list effect :=
  (Ok (),
   {| callbacks := callbacks self; history := []; max_history := max_history self |},
   [Log "info" (py "Historique des événements effacé")]).

(** The operations of a manager, and a run of them from a fresh manager. *)
Inductive operation :=
  | OpRegister (event_type : str) (callback : callback)
  | OpTrigger (now : Q) (event_type : str) (args : kwargs)
  | OpSaveHistory (write : str -> list event -> result unit) (file_path : str)
  | OpClearHistory.

Definition apply_operation (self : CallbackManager) (op : operation)
    : result unit * CallbackManager * list effect :=
  match op with
  | OpRegister event_type callback => register self event_type callback
  | OpTrigger now event_type args => trigger now self event_type args
  | OpSaveHistory write file_path => save_history write self file_path
  | OpClearHistory => clear_history self
  end.

(** The manager after the operations, whether they raise or not: a caller
    that catches the exception goes on with the manager as it is. *)
Definition run_operations (self : CallbackManager) (ops : list operation)
    : CallbackManager :=
  foldl (fun self op => (apply_operation self op).1.2) self ops.

(** The helpers for the usual events; [stamp] is
    [time.strftime("%Y-%m-%d %H:%M:%S")]. *)
Definition on_message_received (now : Q) (stamp : str) (self : CallbackManager)
    (user_message bot_response detected_language : str)
    : result unit * CallbackManager * list effect :=
  trigger now self (py "on_message")
    [(py "user_message", VStr user_message); (py "bot_response", VStr bot_response);
     (py "detected_language", VStr detected_language); (py "timestamp", VStr stamp)].

Definition on_error_occurred (now : Q) (stamp : str) (self : CallbackManager)
    (error_type error_message module : str)
    : result unit * CallbackManager * list effect :=
  trigger now self (py "on_error")
    [(py "error_type", VStr error_type); (py "error_message", VStr error_message);
     (py "module", VStr module); (py "timestamp", VStr stamp)].

(** The invariants of a manager: every known event type has its list of
    subscribers, and the history holds at most a hundred entries. *)
Definition manager_wf (self : CallbackManager) : Prop :=
  Forall (fun event_type => is_Some (callbacks self !! event_type)) CALLBACK_TYPES.

Definition history_bounded (self : CallbackManager) : Prop :=
  max_history self = 100 ∧ length (history self) ≤ 100.

(* ===================================================================== *)
(** ** modules/chat.py *)
(* ===================================================================== *)

(** A constant dictionary, as the list of its items in the order they are
    written; [dict_get d k] is [d.get(k)]. *)
Fixpoint dict_get {V} (d : list (str * V)) (k : str) : option V :=
  match d with
  | [] => None
  | (k', v) :: d' => if str_eqb k' k then Some v else dict_get d' k
  end.

Definition HEALTH_KEYWORDS_fr : list str :=
  [py "cancer";
   py "sein";
   py "tumeur";
   py "mammaire";
   py "santé";
   py "médecin";
   py "médical";
   py "hôpital";
   py "maladie";
   py "traitement";
   py "symptôme";
   py "douleur";
   py "dépistage";
   py "diagnostic";
   py "médicament";
   py "chirurgie";
   py "thérapie";
   py "radiothérapie";
   py "chimiothérapie";
   py "bénin";
   py "malin";
   py "métastase";
   py "cellule";
   py "biopsie";
   py "mammographie";
   py "échographie";
   py "prévention";
   py "risque";
   py "hormonal";
   py "récidive";
   py "guérison";
   py "consulter"].

Definition HEALTH_KEYWORDS_en : list str :=
  [py "cancer";
   py "breast";
   py "tumor";
   py "health";
   py "doctor";
   py "medical";
   py "hospital";
   py "disease";
   py "treatment";
   py "symptom";
   py "pain";
   py "screening";
   py "diagnosis";
   py "medicine";
   py "surgery";
   py "therapy";
   py "radiotherapy";
   py "chemotherapy";
   py "benign";
   py "malignant";
   py "metastasis";
   py "cell";
   py "biopsy";
   py "mammography";
   py "ultrasound";
   py "prevention";
   py "risk";
   py "hormonal";
   py "recurrence";
   py "recovery";
   py "consult"].

Definition HEALTH_KEYWORDS_ar : list str :=
  [py "سرطان";
   py "ثدي";
   py "ورم";
   py "صحة";
   py "طبيب";
   py "طبي";
   py "مستشفى";
   py "مرض";
   py "علاج";
   py "عرض";
   py "ألم";
   py "فحص";
   py "تشخيص";
   py "دواء";
   py "جراحة";
   py "معالجة";
   py "علاج إشعاعي";
   py "علاج كيميائي";
   py "حميد";
   py "خبيث";
   py "نقيلة";
   py "خلية";
   py "خزعة";
   py "تصوير الثدي";
   py "تصوير بالموجات فوق الصوتية";
   py "وقاية";
   py "خطر";
   py "هرموني";
   py "انتكاس";
   py "شفاء";
   py "استشارة"].

Definition HEALTH_KEYWORDS : list (str * list str) :=
  [(py "fr", HEALTH_KEYWORDS_fr);
   (py "en", HEALTH_KEYWORDS_en);
   (py "ar", HEALTH_KEYWORDS_ar)].

Definition OFF_TOPIC_MESSAGES_fr : str :=
  py "Je suis spécialisé dans les questions relatives au cancer du sein et à la santé. Je ne peux pas répondre à cette question qui semble en dehors de mon domaine d'expertise. Si vous avez des questions sur le cancer du sein, ses symptômes, traitements ou prévention, je serai ravi de vous aider.".

Definition OFF_TOPIC_MESSAGES_en : str :=
  py "I specialize in questions related to breast cancer and health. I cannot answer this question as it appears to be outside my area of expertise. If you have questions about breast cancer, its symptoms, treatments, or prevention, I would be happy to help.".

Definition OFF_TOPIC_MESSAGES_ar : str :=
  py "أنا متخصص في الأسئلة المتعلقة بسرطان الثدي والصحة. لا يمكنني الإجابة على هذا السؤال لأنه يبدو خارج مجال خبرتي. إذا كان لديك أسئلة حول سرطان الثدي وأعراضه وعلاجاته أو الوقاية منه، فسأكون سعيدًا بمساعدتك.".

Definition OFF_TOPIC_MESSAGES : list (str * str) :=
  [(py "fr", OFF_TOPIC_MESSAGES_fr);
   (py "en", OFF_TOPIC_MESSAGES_en);
   (py "ar", OFF_TOPIC_MESSAGES_ar)].

(** The languages are tried in this order. *)
Definition GREETINGS : list (str * list str) :=
  [(py "fr", [py "bonjour";
      py "salut";
      py "bonsoir";
      py "coucou";
      py "hello"]);
   (py "en", [py "hi";
      py "hello";
      py "hey";
      py "good morning";
      py "good evening"]);
   (py "ar", [py "مرحبا";
      py "أهلا";
      py "السلام عليكم";
      py "السلام عليكم ورحمة الله"])].

Definition GREETING_RESPONSES_fr : str :=
  py "Bonjour ! Comment puis-je vous aider concernant le cancer du sein ?".

Definition GREETING_RESPONSES_en : str :=
  py "Hello! How can I assist you regarding breast cancer?".

Definition GREETING_RESPONSES_ar : str :=
  py "مرحبًا! كيف يمكنني مساعدتك بشأن سرطان الثدي؟".

Definition GREETING_RESPONSES : list (str * str) :=
  [(py "fr", GREETING_RESPONSES_fr);
   (py "en", GREETING_RESPONSES_en);
   (py "ar", GREETING_RESPONSES_ar)].

(** The generator [llama_model.create_completion], an external collaborator:
    from the prompt (the decoding parameters are constants of the call) to
    the text of the first choice, [resp["choices"][0]["text"]], or to the
    exception raised on the way. *)
Record Llama := { create_completion : str -> result str }.

(** [[^\w\s\u0600-\u06FF]] (no flag). *)
Definition PUNCTUATION : regex := Chr (CSet true [IWord; ISpace; IRange 1536 1791]).

Definition canned_responses_fr : list (str * str) :=
  [(py "cancer_info", py "Le cancer du sein est une maladie où les cellules mammaires se multiplient de façon anormale. Un dépistage précoce augmente significativement les chances de guérison.");
   (py "benign_info", py "Une tumeur bénigne n'est pas cancéreuse. Elle ne se propage pas aux tissus environnants et n'est généralement pas dangereuse pour la santé.");
   (py "malignant_info", py "Une tumeur maligne est cancéreuse et peut envahir les tissus environnants. Un traitement médical rapide est essentiel.");
   (py "treatment", py "Les traitements courants du cancer du sein incluent la chirurgie, la radiothérapie, la chimiothérapie, l'hormonothérapie et les thérapies ciblées.");
   (py "default", py "Je n'ai pas d'information spécifique sur ce sujet. Consultez un professionnel de santé pour des conseils médicaux personnalisés.")].

Definition canned_responses_en : list (str * str) :=
  [(py "cancer_info", py "Breast cancer is a disease where breast cells multiply abnormally. Early detection significantly increases chances of recovery.");
   (py "benign_info", py "A benign tumor is not cancerous. It does not spread to surrounding tissues and is generally not dangerous to health.");
   (py "malignant_info", py "A malignant tumor is cancerous and can invade surrounding tissues. Prompt medical treatment is essential.");
   (py "treatment", py "Common breast cancer treatments include surgery, radiation therapy, chemotherapy, hormone therapy, and targeted therapies.");
   (py "default", py "I don't have specific information on this topic. Please consult a healthcare professional for personalized medical advice.")].

Definition canned_responses_ar : list (str * str) :=
  [(py "cancer_info", py "سرطان الثدي هو مرض تتكاثر فيه خلايا الثدي بشكل غير طبيعي. يزيد الكشف المبكر بشكل كبير من فرص الشفاء.");
   (py "benign_info", py "الورم الحميد ليس سرطانيًا. لا ينتشر إلى الأنسجة المحيطة وعادة لا يشكل خطرًا على الصحة.");
   (py "malignant_info", py "الورم الخبيث سرطاني ويمكن أن يغزو الأنسجة المحيطة. العلاج الطبي السريع ضروري.");
   (py "treatment", py "تشمل علاجات سرطان الثدي الشائعة الجراحة والعلاج الإشعاعي والعلاج الكيميائي والعلاج الهرموني والعلاجات المستهدفة.");
   (py "default", py "ليس لدي معلومات محددة حول هذا الموضوع. يرجى استشارة أخصائي رعاية صحية للحصول على نصائح طبية مخصصة.")].

Definition canned_responses : list (str * list (str * str)) :=
  [(py "fr", canned_responses_fr);
   (py "en", canned_responses_en);
   (py "ar", canned_responses_ar)].

Definition canned_words_cancer : list str :=
  [py "cancer";
   py "sein";
   py "mammaire";
   py "breast";
   py "سرطان";
   py "ثدي"].

Definition canned_words_benign : list str :=
  [py "bénin";
   py "benin";
   py "bénigne";
   py "benign";
   py "حميد"].

Definition canned_words_malignant : list str :=
  [py "malin";
   py "maligne";
   py "malignes";
   py "malignant";
   py "خبيث"].

Definition canned_words_treatment : list str :=
  [py "traitement";
   py "soigner";
   py "guérir";
   py "guérison";
   py "treatment";
   py "therapy";
   py "علاج"].

Definition IMAGE_BENIGN_fr : str :=
  py "D'après l'analyse de votre image, une tumeur bénigne a été détectée. Les tumeurs bénignes ne sont généralement pas cancéreuses, mais un suivi médical est recommandé.".

Definition IMAGE_BENIGN_en : str :=
  py "Based on the analysis of your image, a benign tumor has been detected. Benign tumors are generally not cancerous, but medical follow-up is recommended.".

Definition IMAGE_BENIGN_ar : str :=
  py "بناءً على تحليل صورتك، تم اكتشاف ورم حميد. الأورام الحميدة ليست سرطانية عمومًا، ولكن يوصى بالمتابعة الطبية.".

Definition IMAGE_BENIGN : list (str * str) :=
  [(py "fr", IMAGE_BENIGN_fr);
   (py "en", IMAGE_BENIGN_en);
   (py "ar", IMAGE_BENIGN_ar)].

Definition IMAGE_BENIGN_default : str :=
  py "D'après l'analyse de votre image, une tumeur bénigne a été détectée. Les tumeurs bénignes ne sont généralement pas cancéreuses, mais un suivi médical est recommandé.".

Definition IMAGE_MALIGNANT_fr : str :=
  py "D'après l'analyse de votre image, une tumeur maligne a été détectée. Veuillez consulter un médecin dès que possible pour une évaluation professionnelle.".

Definition IMAGE_MALIGNANT_en : str :=
  py "Based on the analysis of your image, a malignant tumor has been detected. Please consult a doctor as soon as possible for a professional evaluation.".

Definition IMAGE_MALIGNANT_ar : str :=
  py "بناءً على تحليل صورتك، تم اكتشاف ورم خبيث. يرجى استشارة الطبيب في أقرب وقت ممكن للحصول على تقييم مهني.".

Definition IMAGE_MALIGNANT : list (str * str) :=
  [(py "fr", IMAGE_MALIGNANT_fr);
   (py "en", IMAGE_MALIGNANT_en);
   (py "ar", IMAGE_MALIGNANT_ar)].

Definition IMAGE_MALIGNANT_default : str :=
  py "D'après l'analyse de votre image, une tumeur maligne a été détectée. Veuillez consulter un médecin dès que possible pour une évaluation professionnelle.".

Section Chat.
Context `{Unicode} `{Langdetect}.

Definition clean_text (text : str) : str :=
  str_strip (re_sub false PUNCTUATION [] (str_lower text)).

(** The language of the first greeting, in the order of [GREETINGS], that the
    cleaned text starts with. *)
Definition detect_greeting_language (text : str) : option str :=
  let cleaned := clean_text text in
  (list_find (fun '(lang, greets) => existsb (fun g => startswith g cleaned) greets = true)
             GREETINGS) ≫= (fun found => Some found.2.1).

Definition is_health_related (text language : str) : bool :=
  let txt := str_lower text in
  any_in (default HEALTH_KEYWORDS_fr (dict_get HEALTH_KEYWORDS language)) txt ||
  existsb (fun '(lang, keywords) => negb (str_eqb lang language) && any_in keywords txt)
          [(py "fr", HEALTH_KEYWORDS_fr); (py "en", HEALTH_KEYWORDS_en)].

(** [OFF_TOPIC_MESSAGES.get(language, OFF_TOPIC_MESSAGES["fr"])]. *)
Definition off_topic_message (language : str) : str :=
  default OFF_TOPIC_MESSAGES_fr (dict_get OFF_TOPIC_MESSAGES language).

(** The answer and the effects of the call, in order. *)
Definition get_llama_response (llama_model : Llama) (query knowledge_base : str)
    : str * list effect :=
  let language := detect_language query in
  if negb (is_health_related query language) then
    (off_topic_message language, [])
  else
    let know := extract_relevant_knowledge query knowledge_base language in
    let prompt := generate_llama_prompt query language know true in
    let built := [Retrieval query knowledge_base language; PromptBuilt prompt] in
    let '(prompt, built) :=
      if (100000 <? Z.of_nat (length prompt))%Z then
        let shorter :=
          generate_llama_prompt query language (take 2000 know ++ py "…") true in
        (shorter,
         built ++ [Ui "warning" [VStr (py "Prompt trop long, troncature…")];
                   PromptBuilt shorter])
      else (prompt, built) in
    (* the [try] block *)
    let attempt : result str :=
      text ← create_completion llama_model prompt;
      let text := str_strip text in
      if bool_decide (text = []) || (length text <? 10)%nat
      then Ok (get_fallback_response query language)
      else clean_llama_response text query in
    match attempt with
    | Ok answer => (answer, built ++ [Generation prompt])
    | Raise e =>
        (get_fallback_response query language,
         built ++ [Generation prompt;
                   Ui "error" [VStr (py "Erreur génération LLaMA: " ++ exn_msg e)]])
    end.

(** [get_fallback_responses], the canned answers used without a generator. *)
Definition get_fallback_responses (query language : str) : str :=
  let language :=
    if bool_decide (dict_get canned_responses language = None) then py "fr"
    else language in
  let responses (category : string) : str :=
    default [] (dict_get (default [] (dict_get canned_responses language))
                         (py category)) in
  let query_lower := str_lower query in
  if any_in canned_words_cancer query_lower then responses "cancer_info"
  else if any_in canned_words_benign query_lower then responses "benign_info"
  else if any_in canned_words_malignant query_lower then responses "malignant_info"
  else if any_in canned_words_treatment query_lower then responses "treatment"
  else responses "default".

(** [detected_condition] is [None], ["normal"] or ["cancer"]; [llama_model]
    is [None] when no generator is loaded. *)
Definition get_bot_response (question : str) (llama_model : option Llama)
    (knowledge_base : str) (detected_condition : option str) : str * list effect :=
  match detect_greeting_language question with
  | Some greeting_lang =>
      (default GREETING_RESPONSES_fr (dict_get GREETING_RESPONSES greeting_lang), [])
  | None =>
      let language := detect_language question in
      if negb (is_health_related question language) then
        (off_topic_message language, [])
      else if bool_decide (detected_condition = Some (py "normal")) then
        (default IMAGE_BENIGN_default (dict_get IMAGE_BENIGN language), [])
      else if bool_decide (detected_condition = Some (py "cancer")) then
        (default IMAGE_MALIGNANT_default (dict_get IMAGE_MALIGNANT language), [])
      else
        match llama_model with
        | Some model => get_llama_response model question knowledge_base
        | None => (get_fallback_responses question language, [])
        end
  end.

End Chat.

(** The text contains a domain keyword of some supported language. *)
Definition has_domain_keyword `{Unicode} (text : str) : bool :=
  existsb (fun '(_, keywords) => any_in keywords (str_lower text)) HEALTH_KEYWORDS.

(** The effects that enter the generation path: knowledge retrieval, prompt
    building and the call of the generator. *)
Definition is_generation_effect (e : effect) : bool :=
  match e with
  | Retrieval _ _ _ | PromptBuilt _ | Generation _ => true
  | _ => false
  end.

(** Collaborators used in the examples: a language identifier that always
    answers [lang], and a generator that always raises. *)
Definition always_detects (lang : str) : Langdetect :=
  {| langdetect_detect := fun _ => Ok lang |}.

Definition failing_llama : Llama :=
  {| create_completion := fun _ =>
       Raise (Exn (py "RuntimeError") (py "llama_decode returned 1")) |}.

(* ===================================================================== *)
(** ** modules/detection.py *)
(* ===================================================================== *)

(** A detected box: the class index and the confidence of the detector. *)
Record box := Box { box_cls : Z; box_conf : Q }.

(** One result of the detector: the names of its classes and its boxes, in
    the order of the detector. *)
Record yolo_result := YoloResult { names : Z -> str; boxes : list box }.

(** What the module reads and writes: [st.session_state.detected_condition],
    the manager it imported ([None] when the import failed) and the number
    of readings of the clock so far. *)
Record world := World {
  detected_condition : option str;
  callback_manager : option CallbackManager;
  ticks : nat;
}.

(** A computation over the world that may raise. *)
Record action (A : Type) := Action {
  run : world -> result A * world * list effect
}.
Arguments Action {A} run.
Arguments run {A} a w.

#[global] Instance action_ret : MRet action := fun A a => Action (fun w => (Ok a, w, [])).
#[global] Instance action_bind : MBind action := fun A B f m =>
  Action (fun w =>
    match run m w with
    | (Ok a, w', t) => let '(r, w'', t') := run (f a) w' in (r, w'', t ++ t')
    | (Raise e, w', t) => (Raise e, w', t)
    end).

Definition ui (call : string) (args : list value) : action unit :=
  Action (fun w => (Ok (), w, [Ui call args])).

Definition lift {A} (r : result A) : action A := Action (fun w => (r, w, [])).

Definition set_detected_condition (c : option str) : action unit :=
  Action (fun w =>
    (Ok (),
     {| detected_condition := c; callback_manager := callback_manager w;
        ticks := ticks w |}, [])).

Definition get_detected_condition : action (option str) :=
  Action (fun w => (Ok (detected_condition w), w, [])).

(** [torch.argmax]: the index of the first maximal value; it raises on an
    empty tensor. *)
Fixpoint argmax_from (best_i : nat) (best : Q) (i : nat) (l : list Q) : nat :=
  match l with
  | [] => best_i
  | x :: l' =>
      if Qgtb x best then argmax_from i x (S i) l'
      else argmax_from best_i best (S i) l'
  end.

Definition argmax (l : list Q) : result nat :=
  match l with
  | [] => Raise (Exn (py "IndexError") (py "argmax(): Expected reduction dim to be specified for input.numel() == 0"))
  | x :: l' => Ok (argmax_from 0 x 1 l')
  end.

(** [str(n)]. *)
Definition str_of_nat (n : nat) : str := py (pretty n).

(** [conf > MALIGNANCY_THRESHOLD], the test applied to every box and to the
    highest confidence. *)
Definition is_malignant (conf : Q) : bool := Qgtb conf MALIGNANCY_THRESHOLD.

Section Detection.
(** [time.time()] at its n-th reading, and the mean of the confidences in
    the floating-point arithmetic of the interpreter. *)
Variable clock : nat -> Q.
Variable mean : list Q -> Q.

(** [if callback_manager: callback_manager.trigger(event_type, **args)];
    the clock is read when the event type is known. *)
Definition trigger_event (event_type : str) (args : kwargs) : action unit :=
  Action (fun w =>
    match callback_manager w with
    | None => (Ok (), w, [])
    | Some manager =>
        let '(r, manager, t) := trigger (clock (ticks w)) manager event_type args in
        (r,
         {| detected_condition := detected_condition w;
            callback_manager := Some manager;
            ticks := if bool_decide (event_type ∈ CALLBACK_TYPES)
                     then S (ticks w) else ticks w |}, t)
    end).

(** The loop over the boxes; the counts and the confidences seen so far are
    carried along. *)
Fixpoint classify_boxes (analysis_id : str) (res : yolo_result) (i : nat)
    (todo : list box) (malignant_count benign_count : nat) (all_confidences : list Q)
    : action (nat * nat * list Q) :=
  match todo with
  | [] => mret (malignant_count, benign_count, all_confidences)
  | b :: todo' =>
      let cls := box_cls b in
      let conf := box_conf b in
      let original_class_name := names res cls in
      let all_confidences := all_confidences ++ [conf] in
      let '(adjusted_class_name, display_name, color, malignant_count, benign_count) :=
        if is_malignant conf
        then (py "cancer", py "MALIGNE", py "🔴", S malignant_count, benign_count)
        else (py "normal", py "BÉNIGNE", py "🟢", malignant_count, S benign_count) in
      _ ← ui "write" [VStr color; VInt (Z.of_nat (i + 1)); VStr display_name;
                      VFloat conf];
      _ ← trigger_event (py "on_classification")
            [(py "detection_id", VStr (analysis_id ++ py "_det" ++ str_of_nat i));
             (py "confidence", VFloat conf);
             (py "original_class", VStr original_class_name);
             (py "adjusted_class", VStr adjusted_class_name);
             (py "is_malignant", VBool (is_malignant conf))];
      classify_boxes analysis_id res (S i) todo' malignant_count benign_count
        all_confidences
  end.

(** The highest confidence: [boxes.conf[torch.argmax(boxes.conf)]]. *)
Definition highest_confidence (bs : list box) : result Q :=
  highest_conf_idx ← argmax (map box_conf bs);
  b ← list_get bs highest_conf_idx;
  Ok (box_conf b).

(** [display_results(yolo_results, image)], for the analysis identifier
    drawn by the call; the image itself only reaches the page. *)
Definition display_results (analysis_id : str) (yolo_results : option (list yolo_result))
    : action unit :=
  _ ← ui "subheader" [VStr (py "Résultats de l'analyse")];
  _ ← ui "image" [VStr (py "Image originale")];
  _ ← ui "subheader" [VStr (py "🔍 Résultats de l'analyse")];
  _ ← match yolo_results with
      | Some (res :: _) =>
          let boxes := boxes res in
          if (0 <? length boxes)%nat then
            _ ← ui "image" [VStr (py "Image avec détections")];
            '(malignant_count, benign_count, all_confidences) ←
              classify_boxes analysis_id res 0 boxes 0 0 [];
            highest_conf ← lift (highest_confidence boxes);
            _ ← (if is_malignant highest_conf
                 then set_detected_condition (Some (py "cancer"))
                 else set_detected_condition (Some (py "normal")));
            final_classification ← get_detected_condition;
            trigger_event (py "on_analysis_complete")
              [(py "analysis_id", VStr analysis_id);
               (py "total_detections", VInt (Z.of_nat (length boxes)));
               (py "malignant_count", VInt (Z.of_nat malignant_count));
               (py "benign_count", VInt (Z.of_nat benign_count));
               (py "average_confidence",
                if bool_decide (all_confidences = []) then VInt 0
                else VFloat (mean all_confidences));
               (py "highest_confidence", VFloat highest_conf);
               (py "final_classification",
                from_option VStr VNone final_classification)]
          else
            _ ← ui "info" [VStr (py "Aucune tumeur n'a été détectée dans cette image.")];
            _ ← set_detected_condition None;
            trigger_event (py "on_analysis_complete")
              [(py "analysis_id", VStr analysis_id);
               (py "total_detections", VInt 0);
               (py "result", VStr (py "no_detection"))]
      | _ =>
          _ ← ui "info" [VStr (py "Aucune tumeur n'a été détectée dans cette image.")];
          _ ← set_detected_condition None;
          trigger_event (py "on_analysis_complete")
            [(py "analysis_id", VStr analysis_id);
             (py "total_detections", VInt 0);
             (py "result", VStr (py "no_results"))]
      end;
  _ ← ui "subheader" [VStr (py "Conclusion")];
  match yolo_results with
  | Some (res :: _) =>
      let boxes := boxes res in
      if (0 <? length boxes)%nat then
        highest_conf ← lift (highest_confidence boxes);
        conclusion ←
          (if is_malignant highest_conf then
             _ ← ui "error" [VStr (py "⚠️ Le modèle détecte une tumeur MALIGNE avec une confiance de {:.1f}%. Caractéristiques possibles: masse irrégulière avec spicules. Veuillez consulter un médecin rapidement."); VFloat highest_conf];
             mret (py "maligne")
           else
             _ ← ui "success" [VStr (py "✅ Le modèle détecte une tumeur BÉNIGNE avec une confiance de {:.1f}%. Caractéristiques possibles: masse ronde à contours lisses. Un suivi médical régulier est recommandé."); VFloat highest_conf];
             mret (py "bénigne"));
        trigger_event (py "on_conclusion")
          [(py "analysis_id", VStr analysis_id);
           (py "conclusion", VStr conclusion);
           (py "confidence", VFloat highest_conf);
           (py "threshold_used", VFloat MALIGNANCY_THRESHOLD)]
      else
        _ ← ui "info" [VStr (py "Aucune tumeur n'a été détectée dans cette image. Cependant, si vous avez des préoccupations, consultez un professionnel de santé.")];
        trigger_event (py "on_conclusion")
          [(py "analysis_id", VStr analysis_id);
           (py "conclusion", VStr (py "aucune_détection"));
           (py "confidence", VInt 0);
           (py "threshold_used", VFloat MALIGNANCY_THRESHOLD)]
  | _ =>
      _ ← ui "info" [VStr (py "Aucune tumeur n'a été détectée dans cette image. Cependant, si vous avez des préoccupations, consultez un professionnel de santé.")];
      trigger_event (py "on_conclusion")
        [(py "analysis_id", VStr analysis_id);
         (py "conclusion", VStr (py "aucune_détection"));
         (py "confidence", VInt 0);
         (py "threshold_used", VFloat MALIGNANCY_THRESHOLD)]
  end.

End Detection.

(* ===================================================================== *)
(** ** app.py: a submitted message in [chat_section] *)
(* ===================================================================== *)

(** A message of the conversation: its role and its content. *)
Record message := Message { role : str; content : str }.

Section App.
Context `{Unicode} `{Langdetect}.
(** [time.time()], [time.strftime("%Y-%m-%d %H:%M:%S")] and
    [traceback.format_exc()]. *)
Variable now : Q.
Variable stamp : str.
Variable format_exc : exn → str.

(** The block run when the form is submitted with a text: the messages and
    the manager after it, and its effects.  The first call of
    [get_bot_response], with the keyword [streaming_callback] that the
    function does not have, raises a TypeError before the function runs; the
    second call is the one that answers.  [update_response] adds the text
    to what the placeholder already shows. *)
Definition submit_message (messages : list message) (bus : CallbackManager)
    (user_input : str) (llama_model : option Llama) (knowledge_base : str)
    (detected_condition : option str)
    : result (list message) * CallbackManager * list effect :=
  let messages := messages ++ [Message (py "user") user_input] in
  let detected_language := detect_language user_input in
  let '(response, answered) :=
    get_bot_response user_input llama_model knowledge_base detected_condition in
  let tried :=
    [Log "warning" (py "La fonction get_bot_response ne supporte pas le streaming")]
    ++ answered ++ [Ui "markdown" [VStr response]] in
  match on_message_received now stamp bus user_input response detected_language with
  | (Ok _, bus, recorded) =>
      (Ok (messages ++ [Message (py "assistant") response]), bus, tried ++ recorded)
  | (Raise e, bus, recorded) =>
      (* [except Exception as e] *)
      let shown := response in
      let response := get_fallback_response user_input detected_language in
      let handled :=
        tried ++ recorded ++
        [Log "error" (py "Erreur lors de la génération de la réponse: " ++ exn_msg e);
         Log "error" (format_exc e);
         Ui "markdown" [VStr (shown ++ response)]] in
      match on_error_occurred now stamp bus (py "response_generation_error")
              (exn_msg e) (py "chat") with
      | (Ok _, bus, recorded) =>
          (Ok (messages ++ [Message (py "assistant") response]), bus,
           handled ++ recorded)
      | (Raise e', bus, recorded) => (Raise e', bus, handled ++ recorded)
      end
  end.

End App.

(** The world is well formed when the manager it holds, if any, has its
    subscriber lists. *)
Definition world_wf (w : world) : Prop :=
  match callback_manager w with
  | Some manager => manager_wf manager
  | None => True
  end.

(** The line shown for the box of index [i]: red and MALIGNE when the box
    is classified malignant, green and BÉNIGNE otherwise. *)
Definition box_line (i : nat) (b : box) : list value :=
  [VStr (if is_malignant (box_conf b) then py "🔴" else py "🟢");
   VInt (Z.of_nat (i + 1));
   VStr (if is_malignant (box_conf b) then py "MALIGNE" else py "BÉNIGNE");
   VFloat (box_conf b)].

(** The lines written by [st.write] in a trace. *)
Definition written_lines (t : list effect) : list (list value) :=
  omap (fun e => match e with
                 | Ui call args => if String.eqb call "write" then Some args else None
                 | _ => None
                 end) t.

(** The action returns normally, and its result, the world it leaves and
    its effects satisfy [P]. *)
Definition returns {A} (a : action A) (w : world)
    (P : A → world → list effect → Prop) : Prop :=
  ∃ x w' t, run a w = (Ok x, w', t) ∧ P x w' t.

(* ===================================================================== *)
(** * Properties *)
(* ===================================================================== *)

(** ** The event bus *)

Lemma length_slice_last {A} (n : nat) (l : list A) :
  n ≠ 0 → length (slice_last n l) = length l `min` n.
Proof.
  intros Hn. unfold slice_last. destruct n as [|n]; [done|].
  rewrite length_drop. lia.
Qed.

Lemma new_manager_wf : manager_wf new_manager.1.
Proof.
  unfold manager_wf. repeat constructor; vm_compute; eauto.
Qed.

Lemma new_manager_bounded : history_bounded new_manager.1.
Proof. split; simpl; [done | lia]. Qed.

Lemma register_callbacks_dom self event_type callback k :
  is_Some (callbacks self !! k) →
  is_Some (callbacks (register self event_type callback).1.2 !! k).
Proof.
  intros Hk. unfold register. case_bool_decide; [done|].
  destruct (callbacks self !! event_type) eqn:E; [|done]. simpl.
  destruct (decide (event_type = k)) as [->|Hne].
  - rewrite lookup_insert_eq. eauto.
  - by rewrite lookup_insert_ne.
Qed.

Lemma trigger_callbacks now self event_type args :
  callbacks (trigger now self event_type args).1.2 = callbacks self.
Proof.
  unfold trigger. case_bool_decide; [done|].
  simpl. by destruct (callbacks self !! event_type).
Qed.

Lemma apply_operation_wf self op :
  manager_wf self → manager_wf (apply_operation self op).1.2.
Proof.
  unfold manager_wf. intros Hwf. eapply Forall_impl; [exact Hwf|].
  intros k Hk. destruct op as [et cb|now et args|wr path|]; simpl.
  - by apply register_callbacks_dom.
  - by rewrite trigger_callbacks.
  - unfold save_history. by destruct (wr path (history self)).
  - done.
Qed.

(** The history after a trigger of a known event type, whether it raises
    or not. *)
Lemma trigger_history now self event_type args :
  event_type ∈ CALLBACK_TYPES →
  history (trigger now self event_type args).1.2 =
    let h := history self ++ [Event event_type now args] in
    if (max_history self <? length h)%nat then slice_last (max_history self) h else h.
Proof.
  intros Hin. unfold trigger. rewrite bool_decide_eq_false_2 by tauto.
  simpl. by destruct (callbacks self !! event_type).
Qed.

Lemma trigger_max_history now self event_type args :
  max_history (trigger now self event_type args).1.2 = max_history self.
Proof.
  unfold trigger. case_bool_decide; [done|].
  simpl. by destruct (callbacks self !! event_type).
Qed.

Lemma trigger_bounded now self event_type args :
  history_bounded self → history_bounded (trigger now self event_type args).1.2.
Proof.
  intros [Hmax Hlen]. split; [by rewrite trigger_max_history|].
  destruct (decide (event_type ∈ CALLBACK_TYPES)) as [Hin|Hout].
  - rewrite trigger_history by done. cbv zeta. rewrite Hmax.
    destruct (100 <? _)%nat eqn:E.
    + rewrite length_slice_last by done. lia.
    + apply Nat.ltb_ge in E. done.
  - unfold trigger. by rewrite bool_decide_eq_true_2.
Qed.

Lemma apply_operation_bounded self op :
  history_bounded self → history_bounded (apply_operation self op).1.2.
Proof.
  intros Hb. destruct op as [et cb|now et args|wr path|]; simpl.
  - unfold register. case_bool_decide; [done|].
    by destruct (callbacks self !! et).
  - by apply trigger_bounded.
  - unfold save_history. by destruct (wr path (history self)).
  - destruct Hb as [Hmax _]. split; simpl; [done | lia].
Qed.

Lemma run_operations_bounded self ops :
  history_bounded self → history_bounded (run_operations self ops).
Proof.
  revert self. induction ops as [|op ops IH]; intros self Hb; [done|].
  apply IH. by apply apply_operation_bounded.
Qed.

(** C5.  The history of the callback manager never exceeds 100 entries,
    whatever operations (register, trigger, save_history, clear_history) are
    run from a fresh manager and however many of them are triggers; every
    operation preserves the bound; and a trigger of a known event on a
    history [h] leaves the last 100 entries of [h] followed by the new
    event, so that the entries dropped are the oldest ones: on a full
    history exactly the first entry goes. *)
Theorem history_never_exceeds_100 :
  (∀ ops, length (history (run_operations new_manager.1 ops)) ≤ 100) ∧
  (∀ self op, history_bounded self → history_bounded (apply_operation self op).1.2) ∧
  (∀ now self event_type args,
     history_bounded self → event_type ∈ CALLBACK_TYPES →
     history (trigger now self event_type args).1.2 =
       drop (length (history self) + 1 - 100)
            (history self ++ [Event event_type now args])) ∧
  (∀ now self event_type args oldest h,
     history_bounded self → event_type ∈ CALLBACK_TYPES →
     history self = oldest :: h → length h = 99 →
     history (trigger now self event_type args).1.2 =
       h ++ [Event event_type now args]).
Proof.
  assert (Hfifo : ∀ now self event_type args,
     history_bounded self → event_type ∈ CALLBACK_TYPES →
     history (trigger now self event_type args).1.2 =
       drop (length (history self) + 1 - 100)
            (history self ++ [Event event_type now args])).
  { intros now self event_type args [Hmax Hlen] Hin.
    rewrite trigger_history by done. cbv zeta. rewrite Hmax, length_app. simpl.
    destruct (100 <? _)%nat eqn:E.
    - unfold slice_last. by rewrite length_app.
    - apply Nat.ltb_ge in E.
      replace (length (history self) + 1 - 100) with 0 by lia. done. }
  split; [|split; [|split]].
  - intros ops. apply run_operations_bounded, new_manager_bounded.
  - apply apply_operation_bounded.
  - exact Hfifo.
  - intros now self event_type args oldest h Hb Hin Hh Hlen.
    rewrite Hfifo by done. rewrite Hh.
    replace (length (oldest :: h) + 1 - 100) with 1 by (simpl; lia). done.
Qed.

(** C8.  On a manager that has its subscriber lists, [register] raises the
    invalid-kind error (a ValueError, the manager untouched) exactly when
    the event type is unknown and otherwise appends the subscriber to the
    list of that event type; [trigger] with an unknown event type only logs
    a warning: it returns normally, the manager (history and subscribers)
    is the same, and no subscriber is called. *)
Theorem register_rejects_and_trigger_ignores_unknown_kind
    (self : CallbackManager) (event_type : str) (callback : callback)
    (now : Q) (args : kwargs) :
  manager_wf self →
  (event_type ∉ CALLBACK_TYPES →
     (∃ msg, register self event_type callback
               = (Raise (Exn (py "ValueError") msg), self, [])) ∧
     trigger now self event_type args
       = (Ok (), self,
          [Log "warning" (py "Tentative de déclenchement d'un événement inconnu: "
                            ++ event_type)])) ∧
  (event_type ∈ CALLBACK_TYPES →
     ∃ subscribers,
       callbacks self !! event_type = Some subscribers ∧
       (register self event_type callback).1.1 = Ok () ∧
       callbacks (register self event_type callback).1.2
         = <[event_type := subscribers ++ [callback]]> (callbacks self) ∧
       history (register self event_type callback).1.2 = history self).
Proof.
  intros Hwf. split.
  - intros Hout. unfold register, trigger.
    rewrite !bool_decide_eq_true_2 by done. eauto.
  - intros Hin. unfold manager_wf in Hwf. rewrite Forall_forall in Hwf.
    destruct (Hwf _ Hin) as [subscribers Hs]. exists subscribers.
    unfold register. rewrite bool_decide_eq_false_2 by tauto.
    rewrite Hs. done.
Qed.

Lemma register_rejects_and_trigger_ignores_unknown_kind_witness :
  let self := new_manager.1 in
  let callback := Callback 0 (fun _ => Ok ()) in
  (py "on_analysis_complete" ∉ CALLBACK_TYPES →
     (∃ msg, register self (py "on_analysis_complete") callback
               = (Raise (Exn (py "ValueError") msg), self, [])) ∧
     trigger 0 self (py "on_analysis_complete") []
       = (Ok (), self,
          [Log "warning" (py "Tentative de déclenchement d'un événement inconnu: "
                            ++ py "on_analysis_complete")])) ∧
  (py "on_analysis_complete" ∈ CALLBACK_TYPES →
     ∃ subscribers,
       callbacks self !! py "on_analysis_complete" = Some subscribers ∧
       (register self (py "on_analysis_complete") callback).1.1 = Ok () ∧
       callbacks (register self (py "on_analysis_complete") callback).1.2
         = <[py "on_analysis_complete" := subscribers ++ [callback]]> (callbacks self) ∧
       history (register self (py "on_analysis_complete") callback).1.2 = history self).
Proof.
  exact (register_rejects_and_trigger_ignores_unknown_kind new_manager.1
           (py "on_analysis_complete") (Callback 0 (fun _ => Ok ())) 0 []
           new_manager_wf).
Defined.

(** ** Knowledge retrieval *)

(** C3.  A knowledge base shorter than 1000 characters is returned as it
    is, whatever the query and the language.  Otherwise the text returned
    is at most 1500 characters followed by the three characters of the
    ellipsis marker; the marker is appended exactly when the kept
    paragraphs, joined, exceed 1500 characters, and then the text is their
    first 1500 characters followed by the marker; when they do not, the
    text is the joined paragraphs, unchanged. *)
Theorem extract_relevant_knowledge_bounds `{Unicode} (query knowledge_base language : str) :
  (length knowledge_base < 1000 →
     extract_relevant_knowledge query knowledge_base language = knowledge_base) ∧
  (1000 ≤ length knowledge_base →
     let combined := combined_segments query knowledge_base language in
     length (extract_relevant_knowledge query knowledge_base language) ≤ 1500 + length (py "...") ∧
     (1500 < length combined →
        extract_relevant_knowledge query knowledge_base language
          = take 1500 combined ++ py "...") ∧
     (length combined ≤ 1500 →
        extract_relevant_knowledge query knowledge_base language = combined)).
Proof.
  unfold extract_relevant_knowledge. split.
  - intros Hshort. apply Nat.ltb_lt in Hshort. by rewrite Hshort.
  - intros Hlong. apply Nat.ltb_ge in Hlong. rewrite Hlong. cbv zeta.
    set (combined := combined_segments query knowledge_base language).
    change (length (py "...")) with 3.
    destruct (1500 <? length combined)%nat eqn:E.
    + apply Nat.ltb_lt in E. split; [|split]; [|done|lia].
      rewrite length_app, length_take. change (length (py "...")) with 3. lia.
    + apply Nat.ltb_ge in E. split; [|split]; [lia|lia|done].
Qed.

(** ** The response curator *)

(** C9.  [clean_llama_response] never raises: for every raw text and every
    query it returns a string.  The one operation of the function that can
    raise, the indexing [paragraphs[0]], is only reached when the list of
    paragraphs is not empty. *)
Theorem clean_llama_response_never_raises `{Unicode} (answer query : str) :
  ∃ cleaned : str, clean_llama_response answer query = Ok cleaned.
Proof.
  unfold clean_llama_response.
  destruct (bool_decide (answer = []) || (length answer <? 10)%nat); [eauto|].
  destruct (bool_decide (query ≠ [])); [|simpl; eauto].
  unfold keep_relevant.
  set (paragraphs := long_paragraphs (clean_head answer)).
  match goal with |- context [filter ?P paragraphs] => set (ordered := filter P paragraphs) end.
  destruct (bool_decide (ordered = []) && bool_decide (paragraphs ≠ [])) eqn:E.
  - apply andb_prop in E as [_ Hne]. apply bool_decide_eq_true in Hne.
    destruct paragraphs as [|p ps]; [done|]. simpl. eauto.
  - simpl. eauto.
Qed.

(** ** The topic gate and the answer pipeline *)

Lemma dict_get_Some {V} (d : list (str * V)) (k : str) (v : V) :
  dict_get d k = Some v → (k, v) ∈ d.
Proof.
  induction d as [|[k' v'] d IH]; simpl; [done|].
  unfold str_eqb. case_bool_decide as Hk.
  - intros [= ->]. subst. left.
  - intros Hd. right. auto.
Qed.

Section ChatProperties.
Context `{Unicode} `{Langdetect}.

Lemma no_domain_keyword_in (text lang : str) (keywords : list str) :
  has_domain_keyword text = false →
  (lang, keywords) ∈ HEALTH_KEYWORDS →
  any_in keywords (str_lower text) = false.
Proof.
  unfold has_domain_keyword. intros Hno Hin.
  destruct (any_in keywords (str_lower text)) eqn:E; [|done].
  rewrite <- Hno. symmetry. apply existsb_exists.
  exists (lang, keywords). split; [by apply list_elem_of_In|done].
Qed.

Lemma no_domain_keyword_not_health_related (text language : str) :
  has_domain_keyword text = false → is_health_related text language = false.
Proof.
  intros Hno. unfold is_health_related. cbv zeta.
  assert (Hfr : any_in HEALTH_KEYWORDS_fr (str_lower text) = false).
  { apply (no_domain_keyword_in text (py "fr")); [done|].
    unfold HEALTH_KEYWORDS. set_solver. }
  assert (Hen : any_in HEALTH_KEYWORDS_en (str_lower text) = false).
  { apply (no_domain_keyword_in text (py "en")); [done|].
    unfold HEALTH_KEYWORDS. set_solver. }
  cbn [existsb]. rewrite Hfr, Hen, !andb_false_r, !orb_false_r.
  destruct (dict_get HEALTH_KEYWORDS language) as [keywords|] eqn:E; simpl; [|done].
  apply dict_get_Some in E. by apply (no_domain_keyword_in text language).
Qed.

(** C2.  When the query contains no domain keyword of any supported
    language, [is_health_related] is false for every language tag, and
    [get_llama_response] returns the off-topic message of the detected
    language exactly as the dictionary has it, or the French one when the
    dictionary has no entry for that language; the call has no effect at
    all: no knowledge is retrieved, no prompt is built and the generator is
    not called. *)
Theorem off_topic_query_gets_off_topic_message
    (llama_model : Llama) (query knowledge_base : str) :
  has_domain_keyword query = false →
  (∀ language, is_health_related query language = false) ∧
  get_llama_response llama_model query knowledge_base
    = (match dict_get OFF_TOPIC_MESSAGES (detect_language query) with
       | Some message => message
       | None => OFF_TOPIC_MESSAGES_fr
       end, []).
Proof.
  intros Hno. split.
  - intros language. by apply no_domain_keyword_not_health_related.
  - unfold get_llama_response. cbv zeta.
    rewrite (no_domain_keyword_not_health_related _ _ Hno). cbn [negb].
    unfold off_topic_message. by destruct (dict_get _ _).
Qed.

(** C10.  For a question that is not a greeting and is health-related, when
    the condition detected in the image is "normal" or "cancer",
    [get_bot_response] returns the fixed image-analysis message of the
    detected language (the French one for a language without entry), with
    no effect: neither knowledge retrieval, nor prompt building, nor the
    generator is reached, whether a generator is loaded or not. *)
Theorem image_condition_overrides_generation
    (question : str) (llama_model : option Llama) (knowledge_base : str)
    (detected_condition : str) :
  detect_greeting_language question = None →
  is_health_related question (detect_language question) = true →
  detected_condition = py "normal" ∨ detected_condition = py "cancer" →
  get_bot_response question llama_model knowledge_base (Some detected_condition)
    = (match dict_get (if bool_decide (detected_condition = py "normal")
                       then IMAGE_BENIGN else IMAGE_MALIGNANT)
                      (detect_language question) with
       | Some message => message
       | None => if bool_decide (detected_condition = py "normal")
                 then IMAGE_BENIGN_default else IMAGE_MALIGNANT_default
       end, []) ∧
  IMAGE_BENIGN_default = IMAGE_BENIGN_fr ∧
  IMAGE_MALIGNANT_default = IMAGE_MALIGNANT_fr.
Proof.
  intros Hgreet Hhealth Hcond. split; [|by split; vm_compute].
  unfold get_bot_response.
  rewrite Hgreet. cbv zeta. rewrite Hhealth. cbn [negb].
  destruct Hcond as [-> | ->].
  - rewrite !bool_decide_eq_true_2 by done.
    by destruct (dict_get IMAGE_BENIGN _).
  - rewrite (bool_decide_eq_false_2 (Some (py "cancer") = Some (py "normal")))
      by (vm_compute; congruence).
    rewrite (bool_decide_eq_false_2 (py "cancer" = py "normal"))
      by (vm_compute; congruence).
    rewrite bool_decide_eq_true_2 by done.
    by destruct (dict_get IMAGE_MALIGNANT _).
Qed.

End ChatProperties.

Lemma off_topic_query_gets_off_topic_message_witness :
  (∀ language,
     is_health_related (H := basic_unicode)
       (py "What is the weather today?") language = false) ∧
  get_llama_response (H := basic_unicode) (H0 := always_detects (py "en"))
      failing_llama (py "What is the weather today?") []
    = (match dict_get OFF_TOPIC_MESSAGES
               (detect_language (H := always_detects (py "en"))
                  (py "What is the weather today?")) with
       | Some message => message
       | None => OFF_TOPIC_MESSAGES_fr
       end, []).
Proof.
  apply (off_topic_query_gets_off_topic_message (H := basic_unicode)
           (H0 := always_detects (py "en"))).
  vm_compute. reflexivity.
Defined.

Lemma image_condition_overrides_generation_witness :
  get_bot_response (H := basic_unicode) (H0 := always_detects (py "fr"))
      (py "Quels sont les symptômes du cancer ?") (Some failing_llama) []
      (Some (py "cancer"))
    = (match dict_get (if bool_decide (py "cancer" = py "normal")
                       then IMAGE_BENIGN else IMAGE_MALIGNANT)
                      (detect_language (H := always_detects (py "fr"))
                         (py "Quels sont les symptômes du cancer ?")) with
       | Some message => message
       | None => if bool_decide (py "cancer" = py "normal")
                 then IMAGE_BENIGN_default else IMAGE_MALIGNANT_default
       end, []) ∧
  IMAGE_BENIGN_default = IMAGE_BENIGN_fr ∧
  IMAGE_MALIGNANT_default = IMAGE_MALIGNANT_fr.
Proof.
  apply (image_condition_overrides_generation (H := basic_unicode)
           (H0 := always_detects (py "fr"))).
  - vm_compute. reflexivity.
  - vm_compute. reflexivity.
  - right. reflexivity.
Defined.

(** ** Detection *)

Lemma Qgtb_lt (a b : Q) : Qgtb a b = true ↔ (b < a)%Q.
Proof.
  unfold Qgtb. rewrite negb_true_iff, <- not_true_iff_false, Qle_bool_iff.
  split; [apply Qnot_le_lt | apply Qlt_not_le].
Qed.

Lemma Qgtb_le (a b : Q) : Qgtb a b = false ↔ (a <= b)%Q.
Proof.
  unfold Qgtb. rewrite negb_false_iff. apply Qle_bool_iff.
Qed.

(** [argmax_from] returns either the index it was given, when nothing that
    follows is greater, or the index of the first of the greatest values
    that follow. *)
Lemma argmax_from_spec (l : list Q) : ∀ (best_i : nat) (best : Q) (i : nat),
  (argmax_from best_i best i l = best_i ∧ ∀ k y, l !! k = Some y → (y <= best)%Q) ∨
  (∃ j x, argmax_from best_i best i l = i + j ∧ l !! j = Some x ∧ (best < x)%Q ∧
          (∀ k y, l !! k = Some y → (y <= x)%Q) ∧
          (∀ k y, k < j → l !! k = Some y → (y < x)%Q)).
Proof.
  induction l as [|x l IH]; intros best_i best i; simpl.
  - left. split; [done|]. intros k y Hk. by rewrite lookup_nil in Hk.
  - destruct (Qgtb x best) eqn:E.
    + apply Qgtb_lt in E. right.
      destruct (IH i x (S i)) as [[Hr Hall] | (j & x' & Hr & Hj & Hlt & Hall & Hfirst)].
      * exists 0, x. rewrite Hr. split_and!; [lia|done|done| |].
        -- intros [|k] y Hk; simpl in Hk.
           ++ injection Hk as ->. apply Qle_refl.
           ++ eauto.
        -- intros k y Hk. lia.
      * exists (S j), x'. rewrite Hr. split_and!; [lia|done| | |].
        -- by eapply Qlt_trans.
        -- intros [|k] y Hk; simpl in Hk.
           ++ injection Hk as ->. by apply Qlt_le_weak.
           ++ eauto.
        -- intros [|k] y Hk Hy; simpl in Hy.
           ++ injection Hy as ->. done.
           ++ apply (Hfirst k); [lia|done].
    + apply Qgtb_le in E.
      destruct (IH best_i best (S i)) as [[Hr Hall] | (j & x' & Hr & Hj & Hlt & Hall & Hfirst)].
      * left. split; [done|]. intros [|k] y Hk; simpl in Hk.
        -- by injection Hk as ->.
        -- eauto.
      * right. exists (S j), x'. rewrite Hr. split_and!; [lia|done|done| |].
        -- intros [|k] y Hk; simpl in Hk.
           ++ injection Hk as ->. apply Qlt_le_weak. by eapply Qle_lt_trans.
           ++ eauto.
        -- intros [|k] y Hk Hy; simpl in Hy.
           ++ injection Hy as ->. by eapply Qle_lt_trans.
           ++ apply (Hfirst k); [lia|done].
Qed.

(** On a list that is not empty, [argmax] returns the index of a greatest
    value, and every value before it is strictly smaller. *)
Lemma argmax_spec (l : list Q) :
  l ≠ [] →
  ∃ i x, argmax l = Ok i ∧ l !! i = Some x ∧
         (∀ k y, l !! k = Some y → (y <= x)%Q) ∧
         (∀ k y, k < i → l !! k = Some y → (y < x)%Q).
Proof.
  destruct l as [|x l]; [done|]. intros _. simpl.
  destruct (argmax_from_spec l 0 x 1) as [[Hr Hall] | (j & x' & Hr & Hj & Hlt & Hall & Hfirst)].
  - exists 0, x. rewrite Hr. split_and!; [done|done| |].
    + intros [|k] y Hk; simpl in Hk.
      * injection Hk as ->. apply Qle_refl.
      * eauto.
    + intros k y Hk. lia.
  - exists (S j), x'. rewrite Hr. split_and!; [done|done| |].
    + intros [|k] y Hk; simpl in Hk.
      * injection Hk as ->. by apply Qlt_le_weak.
      * eauto.
    + intros [|k] y Hk Hy; simpl in Hy.
      * by injection Hy as ->.
      * apply (Hfirst k); [lia|done].
Qed.

Lemma highest_confidence_spec (bs : list box) :
  bs ≠ [] →
  ∃ i b, highest_confidence bs = Ok (box_conf b) ∧ bs !! i = Some b ∧
         (∀ j bj, bs !! j = Some bj → (box_conf bj <= box_conf b)%Q) ∧
         (∀ j bj, j < i → bs !! j = Some bj → (box_conf bj < box_conf b)%Q).
Proof.
  intros Hne.
  destruct (argmax_spec (map box_conf bs)) as (i & x & Hr & Hi & Hall & Hfirst).
  { by destruct bs. }
  change (map box_conf bs) with (box_conf <$> bs) in *.
  rewrite list_lookup_fmap in Hi.
  destruct (bs !! i) as [b|] eqn:Hb; [|done]. injection Hi as <-.
  exists i, b. unfold highest_confidence.
  change (map box_conf bs) with (box_conf <$> bs).
  rewrite Hr. simpl. unfold list_get. rewrite Hb. simpl.
  split_and!; [done|done| |].
  - intros j bj Hj. apply (Hall j). by rewrite list_lookup_fmap, Hj.
  - intros j bj Hlt Hj. apply (Hfirst j); [done|]. by rewrite list_lookup_fmap, Hj.
Qed.

(** *** Running actions *)

Lemma returns_bind {A B} (m : action A) (f : A → action B) (w : world)
    (P : B → world → list effect → Prop) :
  returns m w (fun x w' t => returns (f x) w' (fun y w'' t' => P y w'' (t ++ t'))) →
  returns (m ≫= f) w P.
Proof.
  intros (x & w' & t & Hm & y & w'' & t' & Hf & HP).
  exists y, w'', (t ++ t'). split; [|done].
  unfold mbind, action_bind. simpl. rewrite Hm, Hf. done.
Qed.

Lemma returns_ret {A} (x : A) (w : world) (P : A → world → list effect → Prop) :
  P x w [] → returns (mret x) w P.
Proof. intros HP. by exists x, w, []. Qed.

Lemma returns_ui (call : string) (args : list value) (w : world)
    (P : unit → world → list effect → Prop) :
  P () w [Ui call args] → returns (ui call args) w P.
Proof. intros HP. by exists (), w, [Ui call args]. Qed.

Lemma returns_lift {A} (x : A) (w : world) (P : A → world → list effect → Prop) :
  P x w [] → returns (lift (Ok x)) w P.
Proof. intros HP. by exists x, w, []. Qed.

Lemma returns_set_detected_condition (c : option str) (w : world)
    (P : unit → world → list effect → Prop) :
  P () {| detected_condition := c; callback_manager := callback_manager w;
          ticks := ticks w |} [] →
  returns (set_detected_condition c) w P.
Proof. intros HP. by eexists (), _, []. Qed.

Lemma returns_get_detected_condition (w : world)
    (P : option str → world → list effect → Prop) :
  P (detected_condition w) w [] → returns get_detected_condition w P.
Proof. intros HP. by exists (detected_condition w), w, []. Qed.

Lemma trigger_wf now self event_type args :
  manager_wf self →
  (trigger now self event_type args).1.1 = Ok () ∧
  manager_wf (trigger now self event_type args).1.2 ∧
  written_lines (trigger now self event_type args).2 = [].
Proof.
  intros Hwf. unfold trigger. case_bool_decide as Hin; [done|].
  assert (Hk : is_Some (callbacks self !! event_type)).
  { unfold manager_wf in Hwf. rewrite Forall_forall in Hwf.
    apply Hwf. destruct (decide (event_type ∈ CALLBACK_TYPES)); tauto. }
  destruct Hk as [subscribers Hs]. simpl. rewrite Hs. simpl.
  split_and!; [done|done|].
  clear Hs. unfold run_callbacks. induction subscribers as [|cb cbs IH]; [done|].
  simpl. destruct (cb_call cb args); simpl; exact IH.
Qed.

Section DetectionProperties.
Variable clock : nat → Q.
Variable mean : list Q → Q.

(** A trigger from the detection module returns normally in a well-formed
    world; it leaves the detected condition alone and writes no line. *)
Lemma returns_trigger_event (event_type : str) (args : kwargs) (w : world)
    (P : unit → world → list effect → Prop) :
  world_wf w →
  (∀ w' t, world_wf w' → detected_condition w' = detected_condition w →
           written_lines t = [] → P () w' t) →
  returns (trigger_event clock event_type args) w P.
Proof.
  intros Hwf HP. unfold returns, trigger_event. simpl.
  unfold world_wf in Hwf.
  destruct (callback_manager w) as [manager|] eqn:Hm.
  - destruct (trigger_wf (clock (ticks w)) manager event_type args Hwf)
      as (Hr & Hwf' & Hlines).
    destruct (trigger _ _ _ _) as [[r manager'] t]. simpl in *. subst r.
    eexists (), _, t. split; [done|]. apply HP; [|done|done].
    unfold world_wf. done.
  - exists (), w, []. split; [done|]. apply HP; [|done|done].
    unfold world_wf. by rewrite Hm.
Qed.

(** The loop writes one line per box, in order, counts the boxes on each
    side of the threshold and collects the confidences. *)
Lemma returns_classify_boxes (analysis_id : str) (res : yolo_result)
    (todo : list box) : ∀ (i malignant_count benign_count : nat)
    (all_confidences : list Q) (w : world)
    (P : nat * nat * list Q → world → list effect → Prop),
  world_wf w →
  (∀ w' t m' b' c', world_wf w' → detected_condition w' = detected_condition w →
     written_lines t = imap (fun j b => box_line (i + j) b) todo →
     m' = malignant_count
          + length (filter (fun b => is_malignant (box_conf b) = true) todo) →
     b' = benign_count
          + length (filter (fun b => is_malignant (box_conf b) = false) todo) →
     c' = all_confidences ++ map box_conf todo →
     P (m', b', c') w' t) →
  returns (classify_boxes clock analysis_id res i todo malignant_count benign_count
             all_confidences) w P.
Proof.
  induction todo as [|b todo IH]; intros i mc bc confs w P Hwf HP.
  - simpl. apply returns_ret.
    apply HP; simpl; rewrite ?Nat.add_0_r, ?app_nil_r; done.
  - cbn [classify_boxes]. cbv zeta.
    destruct (is_malignant (box_conf b)) eqn:E.
    + apply returns_bind, returns_ui, returns_bind, returns_trigger_event; [done|].
      intros w1 t1 Hwf1 Hc1 Hl1. apply IH; [done|].
      intros w2 t2 m' b' c' Hwf2 Hc2 Hl2 -> -> ->.
      apply HP; [done|congruence| | | |].
      * unfold written_lines in *. cbn [app omap list_omap].
        cbn [String.eqb Ascii.eqb Bool.eqb]. rewrite omap_app, Hl1, Hl2.
        cbn [app imap]. f_equal.
        -- unfold box_line. rewrite E, Nat.add_0_r. done.
        -- apply imap_ext. intros j bj _. simpl. f_equal. lia.
      * rewrite filter_cons_True by done. simpl. lia.
      * rewrite filter_cons_False by (rewrite E; done). done.
      * by rewrite <- app_assoc.
    + apply returns_bind, returns_ui, returns_bind, returns_trigger_event; [done|].
      intros w1 t1 Hwf1 Hc1 Hl1. apply IH; [done|].
      intros w2 t2 m' b' c' Hwf2 Hc2 Hl2 -> -> ->.
      apply HP; [done|congruence| | | |].
      * unfold written_lines in *. cbn [app omap list_omap].
        cbn [String.eqb Ascii.eqb Bool.eqb]. rewrite omap_app, Hl1, Hl2.
        cbn [app imap]. f_equal.
        -- unfold box_line. rewrite E, Nat.add_0_r. done.
        -- apply imap_ext. intros j bj _. simpl. f_equal. lia.
      * rewrite filter_cons_False by (rewrite E; done). done.
      * rewrite filter_cons_True by done. simpl. lia.
      * by rewrite <- app_assoc.
Qed.
(** C1.  When the detector returns boxes, [display_results] returns
    normally and: every box is shown, in the order of the detector, as
    malignant exactly when its confidence is strictly greater than the
    threshold 0.70 (so 0.71 is malignant and 0.70 is not); and the condition
    stored for the session is the class, by the same test, of the box of
    highest confidence, the first such box in the order of the detector when
    several share the highest confidence. *)
Theorem session_condition_is_class_of_highest_confidence_box
    (analysis_id : str) (res : yolo_result) (rest : list yolo_result) (w : world) :
  boxes res ≠ [] → world_wf w →
  ∃ i b w' t,
    run (display_results clock mean analysis_id (Some (res :: rest))) w = (Ok (), w', t) ∧
    boxes res !! i = Some b ∧
    (∀ j bj, boxes res !! j = Some bj → (box_conf bj <= box_conf b)%Q) ∧
    (∀ j bj, j < i → boxes res !! j = Some bj → (box_conf bj < box_conf b)%Q) ∧
    detected_condition w'
      = Some (if is_malignant (box_conf b) then py "cancer" else py "normal") ∧
    written_lines t = imap box_line (boxes res) ∧
    (∀ conf, is_malignant conf = true ↔ (0.70 < conf)%Q) ∧
    is_malignant 0.71 = true ∧ is_malignant 0.70 = false.
Proof.
  intros Hne Hwf.
  destruct (highest_confidence_spec (boxes res) Hne) as (i & b & Hhigh & Hb & Hmax & Hfirst).
  exists i, b.
  cut (returns (display_results clock mean analysis_id (Some (res :: rest))) w
         (fun _ w' t =>
            detected_condition w'
              = Some (if is_malignant (box_conf b) then py "cancer" else py "normal") ∧
            written_lines t = imap box_line (boxes res))).
  { intros ([] & w' & t & Hrun & Hcond & Hlines). exists w', t.
    split_and!; try done.
    - intros conf. apply Qgtb_lt.
    }
  unfold display_results.
  assert (Hlen : (0 <? length (boxes res))%nat = true).
  { apply Nat.ltb_lt. destruct (boxes res); [done|simpl; lia]. }
  rewrite Hlen. cbv zeta.
  apply returns_bind, returns_ui, returns_bind, returns_ui, returns_bind, returns_ui.
  apply returns_bind, returns_bind, returns_ui, returns_bind.
  apply returns_classify_boxes; [done|].
  intros w1 t1 m1 b1 c1 Hwf1 Hc1 Hl1 -> -> ->.
  rewrite Hhigh.
  apply returns_bind, returns_lift, returns_bind.
  assert (Hfinal : ∀ (wa wb : world) (ta tb tc : list effect),
    detected_condition wb = detected_condition wa →
    detected_condition wa
      = Some (if is_malignant (box_conf b) then py "cancer" else py "normal") →
    written_lines ta = [] → written_lines tb = [] → written_lines tc = [] →
    detected_condition wb
      = Some (if is_malignant (box_conf b) then py "cancer" else py "normal") ∧
    written_lines
      ([Ui "subheader" [VStr (py "Résultats de l'analyse")]] ++
       [Ui "image" [VStr (py "Image originale")]] ++
       [Ui "subheader" [VStr (py "🔍 Résultats de l'analyse")]] ++
       ([Ui "image" [VStr (py "Image avec détections")]] ++
        t1 ++ [] ++ ta ++ tb) ++ tc) = imap box_line (boxes res)).
  { intros wa wb ta tb tc Hab Ha Hta Htb Htc. split; [congruence|].
    cbn [app]. unfold written_lines in *.
    cbn [omap list_omap String.eqb Ascii.eqb Bool.eqb].
    rewrite !omap_app, Hl1, Hta, Htb, Htc, !app_nil_r. done. }
  destruct (is_malignant (box_conf b)) eqn:E.
  - apply returns_set_detected_condition, returns_bind, returns_get_detected_condition.
    apply returns_trigger_event; [done|]. intros w2 t2 Hwf2 Hc2 Hl2.
    apply returns_bind, returns_ui, returns_bind, returns_lift, returns_bind.
    rewrite E. apply returns_bind, returns_ui, returns_ret.
    apply returns_trigger_event; [done|]. intros w3 t3 Hwf3 Hc3 Hl3.
    eapply Hfinal; [exact Hc3|by rewrite Hc2| | |]; done.
  - apply returns_set_detected_condition, returns_bind, returns_get_detected_condition.
    apply returns_trigger_event; [done|]. intros w2 t2 Hwf2 Hc2 Hl2.
    apply returns_bind, returns_ui, returns_bind, returns_lift, returns_bind.
    rewrite E. apply returns_bind, returns_ui, returns_ret.
    apply returns_trigger_event; [done|]. intros w3 t3 Hwf3 Hc3 Hl3.
    eapply Hfinal; [exact Hc3|by rewrite Hc2| | |]; done.
Qed.
End DetectionProperties.


Lemma session_condition_is_class_of_highest_confidence_box_witness :
  let res := YoloResult (fun _ => py "mass") [Box 0 0.3; Box 0 0.85; Box 0 0.85] in
  let w := World None (Some new_manager.1) 0 in
  ∃ i b w' t,
    run (display_results (fun n => inject_Z (Z.of_nat n)) (fun _ => 0%Q)
           (py "analysis_1a2b3c4d") (Some [res])) w = (Ok (), w', t) ∧
    boxes res !! i = Some b ∧
    (∀ j bj, boxes res !! j = Some bj → (box_conf bj <= box_conf b)%Q) ∧
    (∀ j bj, j < i → boxes res !! j = Some bj → (box_conf bj < box_conf b)%Q) ∧
    detected_condition w'
      = Some (if is_malignant (box_conf b) then py "cancer" else py "normal") ∧
    written_lines t = imap box_line (boxes res) ∧
    (∀ conf, is_malignant conf = true ↔ (0.70 < conf)%Q) ∧
    is_malignant 0.71 = true ∧ is_malignant 0.70 = false.
Proof.
  apply (session_condition_is_class_of_highest_confidence_box
           (fun n => inject_Z (Z.of_nat n)) (fun _ => 0%Q) (py "analysis_1a2b3c4d")
           (YoloResult (fun _ => py "mass") [Box 0 0.3; Box 0 0.85; Box 0 0.85]) []
           (World None (Some new_manager.1) 0)).
  - done.
  - exact new_manager_wf.
Defined.

(** ** The events of an image analysis *)

(** Only events of a known type ever enter the history. *)
Lemma trigger_history_known now self event_type args :
  Forall (fun e => ev_type e ∈ CALLBACK_TYPES) (history self) →
  Forall (fun e => ev_type e ∈ CALLBACK_TYPES)
         (history (trigger now self event_type args).1.2).
Proof.
  intros Hall. destruct (decide (event_type ∈ CALLBACK_TYPES)) as [Hin|Hout].
  - rewrite trigger_history by done. cbv zeta.
    assert (Hnew : Forall (fun e => ev_type e ∈ CALLBACK_TYPES)
                     (history self ++ [Event event_type now args])).
    { apply Forall_app. split; [done|]. by apply Forall_singleton. }
    destruct (_ <? _)%nat; [|done].
    unfold slice_last. destruct (max_history self); [done|].
    by apply Forall_drop.
  - unfold trigger. by rewrite bool_decide_eq_true_2.
Qed.

(** C6 (a defect of the code).  For a detection result with the box
    confidences 0.3 and 0.85, on a fresh manager, [display_results] returns
    normally and sets the session condition to "cancer"; the history then
    holds the two classification events, one per box, and nothing else: the
    event "on_analysis_complete", triggered with malignant_count = 1 and
    benign_count = 1, is not in [CALLBACK_TYPES], so that [trigger] drops it
    with a warning, as it drops "on_conclusion", the only event that carries
    the threshold. *)
Theorem analysis_complete_event_is_dropped
    (clock : nat → Q) (mean : list Q → Q) (analysis_id : str) (names : Z → str) :
  let res := YoloResult names [Box 0 0.3; Box 0 0.85] in
  let w := World None (Some new_manager.1) 0 in
  let out := run (display_results clock mean analysis_id (Some [res])) w in
  out.1.1 = Ok () ∧
  detected_condition out.1.2 = Some (py "cancer") ∧
  history <$> callback_manager out.1.2
    = Some [Event (py "on_classification") (clock 0)
              [(py "detection_id", VStr (analysis_id ++ py "_det0"));
               (py "confidence", VFloat 0.3);
               (py "original_class", VStr (names 0%Z));
               (py "adjusted_class", VStr (py "normal"));
               (py "is_malignant", VBool false)];
            Event (py "on_classification") (clock 1)
              [(py "detection_id", VStr (analysis_id ++ py "_det1"));
               (py "confidence", VFloat 0.85);
               (py "original_class", VStr (names 0%Z));
               (py "adjusted_class", VStr (py "cancer"));
               (py "is_malignant", VBool true)]] ∧
  (py "on_analysis_complete" ∉ CALLBACK_TYPES) ∧
  (py "on_conclusion" ∉ CALLBACK_TYPES) ∧
  trigger (clock 2) new_manager.1 (py "on_analysis_complete")
      [(py "malignant_count", VInt 1); (py "benign_count", VInt 1)]
    = (Ok (), new_manager.1,
       [Log "warning" (py "Tentative de déclenchement d'un événement inconnu: "
                         ++ py "on_analysis_complete")]).
Proof.
  cbv zeta. split_and!.
  - vm_compute. reflexivity.
  - vm_compute. reflexivity.
  - vm_compute. reflexivity.
  - vm_compute. intros Hin. by repeat (apply elem_of_cons in Hin as [Heq|Hin]; [discriminate Heq|]); apply elem_of_nil in Hin.
  - vm_compute. intros Hin. by repeat (apply elem_of_cons in Hin as [Heq|Hin]; [discriminate Heq|]); apply elem_of_nil in Hin.
  - vm_compute. reflexivity.
Qed.

(** ** The fallback answer when generation fails *)

Lemma any_in_true (words : list str) (word s : str) :
  word ∈ words → str_in word s = true → any_in words s = true.
Proof.
  intros Hin Hs. unfold any_in. apply existsb_exists.
  exists word. split; [by apply list_elem_of_In|done].
Qed.

Section FallbackProperties.
Context `{Unicode} `{Langdetect}.

Lemma traitement_is_health_related (query : str) :
  str_in (py "traitement") (str_lower query) = true →
  is_health_related query (py "fr") = true.
Proof.
  intros Hq. unfold is_health_related. cbv zeta.
  replace (dict_get HEALTH_KEYWORDS (py "fr")) with (Some HEALTH_KEYWORDS_fr)
    by (vm_compute; reflexivity).
  apply orb_true_iff. left.
  change (default HEALTH_KEYWORDS_fr (Some HEALTH_KEYWORDS_fr)) with HEALTH_KEYWORDS_fr.
  apply (any_in_true _ (py "traitement")); [|done].
  unfold HEALTH_KEYWORDS_fr. set_solver.
Qed.

Lemma fallback_treatment_fr (query : str) :
  str_in (py "traitement") (str_lower query) = true →
  any_in (fallback_words_fr_greeting ++ fallback_words_fr_thanks
            ++ fallback_words_fr_symptoms) (str_lower query) = false →
  get_fallback_response query (py "fr") = fallback_fr_treatment.
Proof.
  intros Hq Hno. unfold any_in in Hno. rewrite !existsb_app in Hno.
  apply orb_false_iff in Hno as [Hg Hno]. apply orb_false_iff in Hno as [Ht Hs].
  unfold get_fallback_response. cbv zeta.
  replace (str_eqb (py "fr") (py "fr")) with true by (vm_compute; reflexivity).
  unfold any_in. rewrite Hg, Ht, Hs.
  fold (any_in fallback_words_fr_treatment (str_lower query)).
  rewrite (any_in_true _ (py "traitement")); [done| |done].
  unfold fallback_words_fr_treatment. set_solver.
Qed.

(** C7, as the code has it.  For a query detected as French whose lower
    case contains "traitement" and none of the greeting, thanks or symptom
    words that [get_fallback_response] tests before it, the query is
    health-related, and when the generator raises, [get_llama_response]
    returns the French treatment answer of the fallback and reports the
    failure on the page with [st.error]; it neither logs nor calls a
    subscriber.  The exception does not leave [get_llama_response]: the
    submission of the message then ends normally, the assistant's message is
    the treatment answer, and the manager is the one left by the trigger of
    the "on_message" event of the exchange. *)
Theorem generator_failure_gives_treatment_fallback
    (llama_model : Llama) (query knowledge_base : str) (e : exn)
    (now : Q) (stamp : str) (format_exc : exn → str)
    (messages : list message) (bus : CallbackManager) :
  detect_language query = py "fr" →
  str_in (py "traitement") (str_lower query) = true →
  any_in (fallback_words_fr_greeting ++ fallback_words_fr_thanks
            ++ fallback_words_fr_symptoms) (str_lower query) = false →
  (∀ prompt, create_completion llama_model prompt = Raise e) →
  is_health_related query (py "fr") = true ∧
  (∃ built prompt,
     get_llama_response llama_model query knowledge_base
       = (fallback_fr_treatment,
          built ++ [Generation prompt;
                    Ui "error" [VStr (py "Erreur génération LLaMA: " ++ exn_msg e)]]) ∧
     Forall (fun eff => match eff with Log _ _ | Called _ _ => False | _ => True end) built) ∧
  (detect_greeting_language query = None → manager_wf bus →
   ∃ shown,
     submit_message now stamp format_exc messages bus query (Some llama_model)
         knowledge_base None
       = (Ok (messages ++ [Message (py "user") query;
                           Message (py "assistant") fallback_fr_treatment]),
          (trigger now bus (py "on_message")
             [(py "user_message", VStr query);
              (py "bot_response", VStr fallback_fr_treatment);
              (py "detected_language", VStr (py "fr"));
              (py "timestamp", VStr stamp)]).1.2,
          shown)).
Proof.
  intros Hlang Hq Hno Hraise.
  pose proof (traitement_is_health_related query Hq) as Hhealth.
  assert (Hllama : ∃ built prompt,
     get_llama_response llama_model query knowledge_base
       = (fallback_fr_treatment,
          built ++ [Generation prompt;
                    Ui "error" [VStr (py "Erreur génération LLaMA: " ++ exn_msg e)]]) ∧
     Forall (fun eff => match eff with Log _ _ | Called _ _ => False | _ => True end) built).
  { unfold get_llama_response. cbv zeta. rewrite Hlang, Hhealth. cbn [negb].
    rewrite fallback_treatment_fr by done.
    destruct (100000 <? _)%Z; cbv beta iota; rewrite Hraise;
      cbn [mbind result_bind]; eexists _, _; (split; [reflexivity|]);
      repeat constructor. }
  split_and!; [done|done|].
  intros Hgreet Hwf. destruct Hllama as (built & prompt & Hllama & _).
  unfold submit_message. cbv zeta. unfold get_bot_response.
  rewrite Hgreet. cbv zeta. rewrite Hlang, Hhealth. cbn [negb].
  rewrite !bool_decide_eq_false_2 by done.
  rewrite Hllama. unfold on_message_received.
  destruct (trigger_wf now bus (py "on_message")
              [(py "user_message", VStr query);
               (py "bot_response", VStr fallback_fr_treatment);
               (py "detected_language", VStr (py "fr"));
               (py "timestamp", VStr stamp)] Hwf) as (Hok & _ & _).
  destruct (trigger _ _ _ _) as [[r bus'] t]. cbn [fst snd] in *. subst r.
  eexists. rewrite <- app_assoc. reflexivity.
Qed.
End FallbackProperties.

Lemma generator_failure_gives_treatment_fallback_witness :
  let query := py "Quel est le traitement du cancer du sein ?" in
  let U := basic_unicode in
  let L := always_detects (py "fr") in
  let e := Exn (py "RuntimeError") (py "llama_decode returned 1") in
  let stamp := py "2026-01-01 00:00:00" in
  is_health_related (H := U) query (py "fr") = true ∧
  (∃ built prompt,
     get_llama_response (H := U) (H0 := L) failing_llama query []
       = (fallback_fr_treatment,
          built ++ [Generation prompt;
                    Ui "error" [VStr (py "Erreur génération LLaMA: " ++ exn_msg e)]]) ∧
     Forall (fun eff => match eff with Log _ _ | Called _ _ => False | _ => True end) built) ∧
  (detect_greeting_language (H := U) query = None → manager_wf new_manager.1 →
   ∃ shown,
     submit_message (H := U) (H0 := L) 0 stamp (fun _ => []) [] new_manager.1 query
         (Some failing_llama) [] None
       = (Ok ([] ++ [Message (py "user") query;
                     Message (py "assistant") fallback_fr_treatment]),
          (trigger 0 new_manager.1 (py "on_message")
             [(py "user_message", VStr query);
              (py "bot_response", VStr fallback_fr_treatment);
              (py "detected_language", VStr (py "fr"));
              (py "timestamp", VStr stamp)]).1.2,
          shown)).
Proof.
  apply (generator_failure_gives_treatment_fallback (H := basic_unicode)
           (H0 := always_detects (py "fr")) failing_llama
           (py "Quel est le traitement du cancer du sein ?") []
           (Exn (py "RuntimeError") (py "llama_decode returned 1"))
           0 (py "2026-01-01 00:00:00") (fun _ => []) [] new_manager.1).
  - vm_compute. reflexivity.
  - vm_compute. reflexivity.
  - vm_compute. reflexivity.
  - intros prompt. reflexivity.
Defined.

(** C7, as the claim states it, fails: for the French question below and a
    generator that raises, the treatment answer is returned and the
    exchange ends normally, but the history of the fresh manager then holds
    the "on_message" event alone: no error event is recorded. *)
Lemma generator_failure_records_no_error_event :
  let query := py "Quel est le traitement du cancer du sein ?" in
  let out :=
    submit_message (H := basic_unicode) (H0 := always_detects (py "fr"))
      0 (py "2026-01-01 00:00:00") (fun _ => []) [] new_manager.1 query
      (Some failing_llama) [] None in
  (get_llama_response (H := basic_unicode) (H0 := always_detects (py "fr"))
     failing_llama query []).1 = fallback_fr_treatment ∧
  out.1.1 = Ok [Message (py "user") query;
                Message (py "assistant") fallback_fr_treatment] ∧
  map ev_type (history out.1.2) = [py "on_message"] ∧
  ¬ ∃ ev, ev ∈ history out.1.2 ∧ ev_type ev = py "on_error".
Proof.
  cbv zeta. split_and!.
  - vm_compute. reflexivity.
  - vm_compute. reflexivity.
  - vm_compute. reflexivity.
  - intros (ev & Hin & Hty).
    assert (Hmap : ev_type ev ∈ map ev_type
              (history (submit_message (H := basic_unicode)
                 (H0 := always_detects (py "fr")) 0 (py "2026-01-01 00:00:00")
                 (fun _ => []) [] new_manager.1
                 (py "Quel est le traitement du cancer du sein ?")
                 (Some failing_llama) [] None).1.2)).
    { change (map ev_type ?l) with (ev_type <$> l). by apply list_elem_of_fmap_2. }
    replace (map ev_type _) with [py "on_message"] in Hmap
      by (vm_compute; reflexivity).
    rewrite Hty in Hmap. apply list_elem_of_singleton in Hmap.
    vm_compute in Hmap. discriminate Hmap.
Qed.

